(** * Ohio parcel extractor: a shallow embedding of [parcel_extractor.py]

    The program is a linear pipeline: parse the [--bbox] string, re-project
    the bounding box, issue one HTTP query, turn the returned polygons into
    drawing entities, save the drawing and, on request, a metadata file.

    The embedding keeps the shape of the source:
    - Python exceptions are values of [exn]; a computation either returns or
      raises ([outcome]);
    - the observable effects ([click.echo], [requests.get], [doc.saveas],
      [json.dump]) are recorded, in program order, as a trace of [event]s;
    - what lies outside the repository (Python's [float] and [str] on
      floats, pyproj's transform, the network, pathlib's [with_suffix]) is
      gathered in the class [Externals]. *)

From Stdlib Require Import ZArith List String Ascii Bool Lia.
From Stdlib Require Import DecimalString.
From Stdlib Require Import Floats.SpecFloat.
Import ListNotations.

Local Open Scope string_scope.
Local Open Scope list_scope.

(** ** Python values used by the program *)

Module Py.

(** The exceptions the program can raise or catch. [RequestException]
    stands for [requests.exceptions.RequestException] and its subclasses
    other than [requests.exceptions.JSONDecodeError], which is
    [RequestsJSONDecodeError]: the error of [Response.json()] (requests 2.27
    and later), a subclass of both [RequestException] and
    [json.JSONDecodeError]. [JSONDecodeError] is a [json.JSONDecodeError]
    that is not a [RequestException]. *)
Inductive exn : Type :=
| SystemExit (code : Z)
| ValueError (msg : string)
| KeyError (key : string)
| IndexError (msg : string)
| ZeroDivisionError (msg : string)
| TypeError (msg : string)
| RequestException (cause : string)
| RequestsJSONDecodeError (cause : string)
| JSONDecodeError (cause : string).

(** The result of running a piece of Python: a value, or a raised
    exception. *)
Inductive outcome (A : Type) : Type :=
| Returned (a : A)
| Raised (e : exn).
Arguments Returned {A} a.
Arguments Raised {A} e.

Definition obind {A B : Type} (o : outcome A) (k : A -> outcome B) : outcome B :=
  match o with
  | Returned a => k a
  | Raised e => Raised e
  end.

(** Python floats are IEEE binary64 numbers. *)
Definition float : Type := spec_float.
Definition prec : Z := 53.
Definition emax : Z := 1024.

Definition float_of_Z (z : Z) : float := binary_normalize prec emax z 0 false.

Definition is_nan (f : float) : bool :=
  match f with
  | S754_nan => true
  | _ => false
  end.

(** [a < b] and [a <= b] on floats. *)
Definition lt (a b : float) : bool := SFltb a b.
Definition le (a b : float) : bool := SFleb a b.

(** [min(a, b)]: CPython keeps the first argument and replaces it only by
    an item that compares strictly smaller. *)
Definition min (a b : float) : float := if lt b a then b else a.

(** [max(a, b)]: the first argument, replaced only by an item that
    compares strictly greater. *)
Definition max (a b : float) : float := if lt a b then b else a.

(** [s.split(sep)] for a one-character separator: the empty string gives
    one empty token, and every separator starts a new token. *)
Fixpoint split (sep : ascii) (s : string) : list string :=
  match s with
  | EmptyString => [EmptyString]
  | String c rest =>
      if Ascii.eqb c sep then EmptyString :: split sep rest
      else match split sep rest with
           | [] => [String c EmptyString]
           | tok :: toks => String c tok :: toks
           end
  end.

(** [str(n)] on integers. *)
Definition str_of_Z (z : Z) : string := NilZero.string_of_int (Z.to_int z).
Definition str_of_nat (n : nat) : string := NilZero.string_of_uint (Nat.to_uint n).

(** [sum(xs)] on floats: starts from [0] and adds from the left, each
    addition rounded to binary64 (CPython up to 3.11; later versions also
    carry a compensation term, which changes nothing when the partial sums
    are exact). *)
Definition sum (xs : list float) : float :=
  fold_left (SFadd prec emax) xs (S754_zero false).

(** [s / n] where [n] is a [len(...)]: the length is converted to a float
    and the quotient is rounded to binary64; division by zero raises. *)
Definition truediv (s : float) (n : nat) : outcome float :=
  match n with
  | O => Raised (ZeroDivisionError "division by zero")
  | S _ => Returned (SFdiv prec emax s (float_of_Z (Z.of_nat n)))
  end.

(** [xs[0]] *)
Definition index0 {A : Type} (xs : list A) : outcome A :=
  match xs with
  | [] => Raised (IndexError "list index out of range")
  | x :: _ => Returned x
  end.

(** A [for] loop whose body updates a state and may raise: the loop stops
    at the first exception. *)
Fixpoint for_in {A S : Type} (xs : list A) (body : A -> S -> outcome S) (s : S)
  : outcome S :=
  match xs with
  | [] => Returned s
  | x :: rest => obind (body x s) (for_in rest body)
  end.

End Py.
Import Py.

(** ** Constants *)

Definition SERVICE_URL : string :=
  "https://gis.ohiodnr.gov/arcgis_site2/rest/services/" ++
  "OIT_Services/odnr_landbase_v2/MapServer/4/query".

(** The [--zone] option is a [click.Choice] over these two names. *)
Inductive zone : Type := north | south.

(** [zone.title()] *)
Definition zone_title (z : zone) : string :=
  match z with
  | north => "North"
  | south => "South"
  end.

(** [STATE_PLANE = {"north": 3734, "south": 3735}] *)
Definition STATE_PLANE (z : zone) : Z :=
  match z with
  | north => 3734
  | south => 3735
  end.

Definition SERVICE_SRID : Z := 3857.

Definition DEFAULT_FIELDS : string := "PIN,OWNER1,OWNER2,ADDRESS,CITY,STATE,ZIP,ACRES".

(** ** Data model *)

(** A bounding box [(xmin, ymin, xmax, ymax)]. *)
Definition bbox : Type := (float * float * float * float)%type.

(** A scalar attribute value of a feature, as [json] parses it. *)
Inductive jvalue : Type :=
| JNull
| JBool (b : bool)
| JInt (z : Z)
| JFloat (f : float)
| JStr (s : string).

(** An attribute mapping: a dict with string keys, in insertion order. *)
Definition attrs : Type := list (string * jvalue).

(** [d.get(key)] *)
Fixpoint dict_get (d : attrs) (key : string) : option jvalue :=
  match d with
  | [] => None
  | (k, v) :: rest => if String.eqb k key then Some v else dict_get rest key
  end.

(** A GeoJSON position [[x, y]]; the program reads [pt[0]] and [pt[1]].
    The coordinates are Python floats (a number written without a fraction
    is taken as the float of the same value). *)
Definition point : Type := (float * float)%type.
Definition ring : Type := list point.

(** The geometry of a feature: its ["type"] and ["coordinates"]. *)
Inductive geometry : Type :=
| Polygon (coordinates : list ring)
| MultiPolygon (coordinates : list (list ring)).

(** A feature; [properties = None] when the feature has no ["properties"]
    key. *)
Record feature : Type := mkFeature {
  geometry_of : geometry;
  properties : option attrs
}.

(** The parsed response: a dict whose ["features"] key may be missing. *)
Record geojson : Type := mkGeojson {
  features : option (list feature)
}.

(** Layer colours of [ezdxf.colors]. *)
Inductive color : Type := CYAN | YELLOW.

(** The entities the writer adds to the model space. *)
Inductive entity : Type :=
| LWPolyline (points : ring) (closed : bool) (layer : string)
| Text (text : string) (layer : string) (height : Z) (insert : float * float).

(** The drawing document: the layers added by the program and the model
    space, in insertion order. *)
Record drawing : Type := mkDrawing {
  layers : list (string * color);
  msp : list entity
}.

(** The object [export_metadata] dumps. *)
Record metadata : Type := mkMetadata {
  total_parcels : nat;
  parcels : list attrs
}.

(** A value of the query-string dict passed to [requests.get]. *)
Inductive param : Type :=
| PStr (s : string)
| PInt (z : Z).

(** ** Effects *)

(** An event records a call: [click.echo], [requests.get], [doc.saveas]
    with the finished document, [json.dump] into the opened file. The run
    goes on as it does when the call returns; an [OSError] of a write is not
    part of the model. *)
Inductive event : Type :=
| Echo (err : bool) (msg : string)
| HttpGet (url : string) (params : list (string * param)) (timeout : Z)
| SaveDxf (path : string) (doc : drawing)
| WriteJson (path : string) (md : metadata).

(** A run: the events performed so far and how the run ended. *)
Definition M (A : Type) : Type := (list event * outcome A)%type.

Definition ret {A : Type} (a : A) : M A := ([], Returned a).
Definition raise {A : Type} (e : exn) : M A := ([], Raised e).
Definition lift {A : Type} (o : outcome A) : M A := ([], o).
Definition emit (ev : event) : M unit := ([ev], Returned tt).

Definition bind {A B : Type} (m : M A) (k : A -> M B) : M B :=
  match m with
  | (t, Returned a) => let (t', r) := k a in (t ++ t', r)
  | (t, Raised e) => (t, Raised e)
  end.

(** [try: m except ...]: [handler e] is [Some h] when an [except] clause
    matches [e]. *)
Definition try_except {A : Type} (m : M A) (handler : exn -> option (M A)) : M A :=
  match m with
  | (t, Raised e) =>
      match handler e with
      | Some h => let (t', r) := h in (t ++ t', r)
      | None => (t, Raised e)
      end
  | (t, Returned a) => (t, Returned a)
  end.

(** [if c: body] *)
Definition when (c : bool) (body : M unit) : M unit :=
  if c then body else ret tt.

Declare Scope py_scope.
Delimit Scope py_scope with py.
Notation "x <- m ;; k" := (bind m (fun x => k))
  (at level 61, m at next level, right associativity) : py_scope.
Notation "m ;; k" := (bind m (fun _ => k))
  (at level 61, right associativity) : py_scope.
Local Open Scope py_scope.

Definition echo (msg : string) : M unit := emit (Echo false msg).
Definition echo_err (msg : string) : M unit := emit (Echo true msg).

(** What the network answers to the one request: a failure of the request
    (of [requests.get] or of [raise_for_status]), a body that is not JSON,
    or a parsed body. *)
Inductive request_failure : Type :=
| Timeout
| ConnectionError
| HTTPError (status : Z)
| TransportError.

Inductive http_result : Type :=
| RequestFailed (kind : request_failure) (cause : string)
| BodyNotJson (cause : string)
| Parsed (gj : geojson).

(** ** What the program takes from outside the repository *)

Class Externals : Type := {
  (** [float(token)]; [None] when it raises [ValueError]. *)
  py_float : string -> option float;
  (** [str(x)] (and [repr(x)]) of a float. *)
  float_str : float -> string;
  (** [Transformer.from_crs(src, dst, always_xy=True).transform(x, y)]. *)
  transform : Z -> Z -> float -> float -> float * float;
  (** The answer to [requests.get(url, params, timeout)] followed by
      [raise_for_status()] and [json()]. *)
  network : string -> list (string * param) -> Z -> http_result;
  (** [str(Path(p).with_suffix(s))]; [None] when pathlib raises
      [ValueError]. *)
  with_suffix : string -> string -> option string
}.

(** ** The program *)

Section Program.
Context {E : Externals}.

(** [bbox_stateplane_to_service(bbox, zone)] *)
Definition bbox_stateplane_to_service (b : bbox) (z : zone) : bbox :=
  let '(xmin, ymin, xmax, ymax) := b in
  let '(x0, y0) := transform (STATE_PLANE z) SERVICE_SRID xmin ymin in
  let '(x1, y1) := transform (STATE_PLANE z) SERVICE_SRID xmax ymax in
  (Py.min x0 x1, Py.min y0 y1, Py.max x0 x1, Py.max y0 y1).

(** The [params] dict of [fetch_parcels]. *)
Definition fetch_params (env_service : bbox) (z : zone) (fields : string)
  : list (string * param) :=
  let '(xmin, ymin, xmax, ymax) := env_service in
  [ ("f", PStr "geojson");
    ("geometryType", PStr "esriGeometryEnvelope");
    ("geometry", PStr (float_str xmin ++ "," ++ float_str ymin ++ "," ++
                       float_str xmax ++ "," ++ float_str ymax));
    ("inSR", PInt SERVICE_SRID);
    ("outSR", PInt (STATE_PLANE z));
    ("outFields", PStr fields);
    ("returnGeometry", PStr "true");
    ("where", PStr "1=1") ].

(** The body of the [try] in [fetch_parcels]: the request, then
    [raise_for_status] and [json] on its response. On a body that is not
    JSON, [json] raises [requests.exceptions.JSONDecodeError]. *)
Definition requests_get_json (url : string) (params : list (string * param))
    (timeout : Z) : M geojson :=
  emit (HttpGet url params timeout) ;;
  match network url params timeout with
  | RequestFailed _ cause => raise (RequestException cause)
  | BodyNotJson cause => raise (RequestsJSONDecodeError cause)
  | Parsed gj => ret gj
  end.

(** [fetch_parcels(env_service, zone, fields)]. The [except] clauses are
    tried in order: [except RequestException] also catches the JSON error
    of [Response.json()], which is one of its subclasses, so the clause
    [except json.JSONDecodeError] is left with nothing to catch. *)
Definition fetch_parcels (env_service : bbox) (z : zone) (fields : string)
  : M geojson :=
  let params := fetch_params env_service z fields in
  try_except
    (requests_get_json SERVICE_URL params 60)
    (fun e =>
       match e with
       | RequestException cause | RequestsJSONDecodeError cause =>
           Some (echo_err ("❌  Error fetching parcels: " ++ cause) ;;
                 raise (SystemExit 1))
       | JSONDecodeError cause =>
           Some (echo_err ("❌  Error parsing response: " ++ cause) ;;
                 raise (SystemExit 1))
       | _ => None
       end).

(** [geojson["features"]] *)
Definition getitem_features (gj : geojson) : outcome (list feature) :=
  match features gj with
  | Some fs => Returned fs
  | None => Raised (KeyError "features")
  end.

(** [feat.get("properties", {})] *)
Definition get_properties (feat : feature) : attrs :=
  match properties feat with
  | Some props => props
  | None => []
  end.

(** Truth value of [props.get(key)]: a missing key gives [None]. *)
Definition truthy (v : option jvalue) : bool :=
  match v with
  | None => false
  | Some JNull => false
  | Some (JBool b) => b
  | Some (JInt z) => negb (Z.eqb z 0)
  | Some (JFloat f) => negb (SFeqb f (S754_zero false))
  | Some (JStr s) => negb (String.eqb s "")
  end.

(** How an f-string renders an attribute value. *)
Definition format_value (v : jvalue) : string :=
  match v with
  | JNull => "None"
  | JBool true => "True"
  | JBool false => "False"
  | JInt z => str_of_Z z
  | JFloat f => float_str f
  | JStr s => s
  end.

(** [props.get(key, "")] *)
Definition get_or_empty (props : attrs) (key : string) : jvalue :=
  match dict_get props key with
  | Some v => v
  | None => JStr ""
  end.

Definition newline : string := String (ascii_of_nat 10) EmptyString.

(** The ring sets of a geometry: a Polygon is wrapped in a list, any
    other geometry gives its coordinates. *)
Definition rings_sets (geom : geometry) : list (list ring) :=
  match geom with
  | Polygon coordinates => [coordinates]
  | MultiPolygon coordinates => coordinates
  end.

(** The body of [for rings in rings_sets], acting on the model space. *)
Definition process_rings (include_attributes : bool) (props : attrs)
    (rings : list ring) (space : list entity) : outcome (list entity) :=
  obind (index0 rings) (fun exterior =>
  let space := space ++ [LWPolyline exterior true "PARCELS"] in
  if include_attributes && truthy (dict_get props "PIN") then
    let x_coords := map fst exterior in
    let y_coords := map snd exterior in
    obind (truediv (Py.sum x_coords) (List.length x_coords)) (fun centroid_x =>
    obind (truediv (Py.sum y_coords) (List.length y_coords)) (fun centroid_y =>
    let pin := get_or_empty props "PIN" in
    let owner := get_or_empty props "OWNER1" in
    let label_text : string :=
      ("PIN: " ++ format_value pin ++ newline ++ "Owner: " ++ format_value owner)%string in
    Returned (space ++ [Text label_text "LABELS" 10 (centroid_x, centroid_y)])))
  else Returned space).

(** The body of [for i, feat in enumerate(geojson["features"])]. *)
Definition process_feature (include_attributes : bool) (feat : feature)
    (space : list entity) : outcome (list entity) :=
  let geom := geometry_of feat in
  let props := get_properties feat in
  for_in (rings_sets geom) (process_rings include_attributes props) space.

(** The document [geojson_to_dxf] has built when it reaches
    [doc.saveas]. *)
Definition build_drawing (gj : geojson) (include_attributes : bool)
  : outcome drawing :=
  let doc_layers :=
    ("PARCELS", CYAN) :: (if include_attributes then [("LABELS", YELLOW)] else []) in
  obind (getitem_features gj) (fun feats =>
  obind (for_in feats (process_feature include_attributes) []) (fun space =>
  Returned (mkDrawing doc_layers space))).

(** [geojson_to_dxf(geojson, dxf_path, include_attributes)] *)
Definition geojson_to_dxf (gj : geojson) (dxf_path : string)
    (include_attributes : bool) : M unit :=
  doc <- lift (build_drawing gj include_attributes) ;;
  emit (SaveDxf dxf_path doc).

(** The object [export_metadata] has built when it opens the file: the
    loop appends each feature's properties to ["parcels"]. *)
Definition build_metadata (feats : list feature) : metadata :=
  fold_left
    (fun md feat =>
       mkMetadata (total_parcels md) (parcels md ++ [get_properties feat]))
    feats
    (mkMetadata (List.length feats) []).

(** [export_metadata(geojson, output_path)] *)
Definition export_metadata (gj : geojson) (output_path : string) : M unit :=
  feats <- lift (getitem_features gj) ;;
  emit (WriteJson output_path (build_metadata feats)).

(** What a name can denote where [main] calls it: there the name
    [export_metadata] is the flag among [main]'s parameters, which hides
    the module-level function. *)
Inductive pyobj : Type :=
| PyBool (b : bool)
| PyFunction (f : geojson -> string -> M unit).

(** [callee(gj, path)] *)
Definition py_call (callee : pyobj) (gj : geojson) (path : string) : M unit :=
  match callee with
  | PyFunction f => f gj path
  | PyBool _ => raise (TypeError "'bool' object is not callable")
  end.

(** Unpacking [map(float, tokens)] into [n] names: the tokens are
    converted one at a time, and after the [n]-th the unpacking asks for
    one more item to see that there is none. *)
Fixpoint unpack_floats (n : nat) (tokens : list string) : outcome (list float) :=
  match n, tokens with
  | O, [] => Returned []
  | O, tok :: _ =>
      match py_float tok with
      | Some _ => Raised (ValueError "too many values to unpack")
      | None => Raised (ValueError "could not convert string to float")
      end
  | S _, [] => Raised (ValueError "not enough values to unpack")
  | S k, tok :: rest =>
      match py_float tok with
      | Some v => obind (unpack_floats k rest) (fun vs => Returned (v :: vs))
      | None => Raised (ValueError "could not convert string to float")
      end
  end.

(** The body of the [try] that parses [--bbox] in [main]. *)
Definition parse_bbox (s : string) : outcome bbox :=
  obind (unpack_floats 4 (split "," s)) (fun vs =>
  match vs with
  | [xmin; ymin; xmax; ymax] =>
      if negb (Nat.eqb (List.length (split "," s)) 4)
      then Raised (ValueError "Need exactly 4 coordinates")
      else Returned (xmin, ymin, xmax, ymax)
  | _ => Raised (ValueError "not enough values to unpack")
  end).

(** [f"{env_service}"]: the repr of a 4-tuple of floats. *)
Definition bbox_repr (b : bbox) : string :=
  let '(x0, y0, x1, y1) := b in
  "(" ++ float_str x0 ++ ", " ++ float_str y0 ++ ", " ++
  float_str x1 ++ ", " ++ float_str y1 ++ ")".

(** [main] from the re-projection on, with the parsed bounding box. *)
Definition main_from_bbox (b : bbox) (z : zone) (out fields : string)
    (include_labels export_metadata verbose : bool) : M unit :=
  let '(xmin, ymin, xmax, ymax) := b in
  when verbose
    (echo ("📍  Bounding box: " ++ float_str xmin ++ ", " ++ float_str ymin ++ ", " ++
           float_str xmax ++ ", " ++ float_str ymax ++
           " (State Plane " ++ zone_title z ++ ")") ;;
     echo ("📄  Output file: " ++ out) ;;
     echo ("🏷️   Fields: " ++ fields)) ;;
  echo "▶  Re-projecting bounding box to Web Mercator…" ;;
  let env_service := bbox_stateplane_to_service (xmin, ymin, xmax, ymax) z in
  when verbose (echo ("   Service bbox: " ++ bbox_repr env_service)) ;;
  echo "▶  Querying ODNR parcel service…" ;;
  gj <- fetch_parcels env_service z fields ;;
  match features gj with
  | None | Some [] =>
      echo "❌  No parcels found in the specified bounding box" ;;
      raise (SystemExit 1)
  | Some (f :: fs) =>
      let parcel_count := List.length (f :: fs) in
      echo ("✅  Found " ++ str_of_nat parcel_count ++ " parcels") ;;
      echo "▶  Building DXF file…" ;;
      geojson_to_dxf gj out include_labels ;;
      echo ("✅  Saved " ++ out) ;;
      metadata_file <-
        (if export_metadata then
           match with_suffix out ".json" with
           | None => raise (ValueError "invalid name")
           | Some metadata_file =>
               py_call (PyBool export_metadata) gj metadata_file ;;
               echo ("📋  Exported metadata to " ++ metadata_file) ;;
               ret (Some metadata_file)
           end
         else ret None) ;;
      when verbose
        (echo (newline ++ "📊  Summary:") ;;
         echo ("   • " ++ str_of_nat parcel_count ++ " parcels exported") ;;
         echo ("   • Coordinate system: Ohio State Plane " ++ zone_title z ++
               " (EPSG:" ++ str_of_Z (STATE_PLANE z) ++ ")") ;;
         echo ("   • Output file: " ++ out) ;;
         when include_labels (echo "   • Labels included: Yes") ;;
         match metadata_file with
         | Some p => echo ("   • Metadata file: " ++ p)
         | None => ret tt
         end)
  end.

(** [main(bbox, zone, out, fields, include_labels, export_metadata,
    verbose)] *)
Definition main (bbox_arg : string) (z : zone) (out fields : string)
    (include_labels export_metadata verbose : bool) : M unit :=
  b <- try_except (lift (parse_bbox bbox_arg))
         (fun e =>
            match e with
            | ValueError _ =>
                Some (echo_err
                        "❌  --bbox must be four comma-separated numbers (xmin,ymin,xmax,ymax)" ;;
                      raise (SystemExit 1))
            | _ => None
            end) ;;
  main_from_bbox b z out fields include_labels export_metadata verbose.

End Program.

(** ** Observations on a trace *)

(** The paths of the drawing files saved during a run. *)
Fixpoint saved_drawings (t : list event) : list string :=
  match t with
  | [] => []
  | SaveDxf path _ :: rest => path :: saved_drawings rest
  | _ :: rest => saved_drawings rest
  end.

(** The paths of the metadata files written during a run. *)
Fixpoint written_metadata (t : list event) : list string :=
  match t with
  | [] => []
  | WriteJson path _ :: rest => path :: written_metadata rest
  | _ :: rest => written_metadata rest
  end.

(** The requests sent during a run. *)
Fixpoint requests_sent (t : list event)
  : list (string * list (string * param) * Z) :=
  match t with
  | [] => []
  | HttpGet url params timeout :: rest => (url, params, timeout) :: requests_sent rest
  | _ :: rest => requests_sent rest
  end.

(** The closed polylines of a model space. *)
Definition is_polyline (e : entity) : bool :=
  match e with
  | LWPolyline _ _ _ => true
  | Text _ _ _ _ => false
  end.

Definition polylines (space : list entity) : list entity := filter is_polyline space.

(** ** What the writer is expected to draw *)

(** The mean of a list of floats as the writer computes it: the sum of all
    the items divided by their number, in binary64. *)
Definition mean (xs : list float) : float :=
  SFdiv prec emax (Py.sum xs) (float_of_Z (Z.of_nat (List.length xs))).

(** The number of ring sets of a collection: one for a Polygon, one per
    member polygon for a MultiPolygon. *)
Definition count_ring_sets (feats : list feature) : nat :=
  list_sum (map (fun feat => match geometry_of feat with
                             | Polygon _ => 1%nat
                             | MultiPolygon members => List.length members
                             end) feats).

(** The exterior rings of a collection, in drawing order. *)
Definition exteriors (feats : list feature) : list ring :=
  flat_map (fun feat =>
              flat_map (fun rings => match rings with
                                     | exterior :: _ => [exterior]
                                     | [] => []
                                     end)
                       (rings_sets (geometry_of feat)))
           feats.

Definition is_empty {A : Type} (xs : list A) : bool :=
  match xs with
  | [] => true
  | _ :: _ => false
  end.

Section Expected.
Context {E : Externals}.

(** A feature is labelled when labels are requested and its PIN is
    non-empty. *)
Definition labelled (include_attributes : bool) (props : attrs) : bool :=
  include_attributes && truthy (dict_get props "PIN").

(** The two-line label of a ring set. *)
Definition label (props : attrs) (exterior : ring) : entity :=
  Text ("PIN: " ++ format_value (get_or_empty props "PIN") ++ newline ++
        "Owner: " ++ format_value (get_or_empty props "OWNER1"))
       "LABELS" 10
       (mean (map fst exterior), mean (map snd exterior)).

(** The entities of one ring set: its polyline, then its label. *)
Definition ring_set_entities (include_attributes : bool) (props : attrs)
    (rings : list ring) : list entity :=
  match rings with
  | [] => []
  | exterior :: _ =>
      LWPolyline exterior true "PARCELS" ::
      (if labelled include_attributes props then [label props exterior] else [])
  end.

Definition feature_entities (include_attributes : bool) (feat : feature)
  : list entity :=
  flat_map (ring_set_entities include_attributes (get_properties feat))
           (rings_sets (geometry_of feat)).

(** The geometry on which the loop body completes: the ring set is not
    empty, and the exterior ring of a labelled feature has a vertex. *)
Definition ring_set_ok (include_attributes : bool) (props : attrs)
    (rings : list ring) : bool :=
  match rings with
  | [] => false
  | exterior :: _ => negb (labelled include_attributes props && is_empty exterior)
  end.

Definition feature_ok (include_attributes : bool) (feat : feature) : bool :=
  forallb (ring_set_ok include_attributes (get_properties feat))
          (rings_sets (geometry_of feat)).

Definition collection_ok (include_attributes : bool) (feats : list feature) : bool :=
  forallb (feature_ok include_attributes) feats.

(** The layers of the document. *)
Definition expected_layers (include_attributes : bool) : list (string * color) :=
  if include_attributes then [("PARCELS", CYAN); ("LABELS", YELLOW)]
  else [("PARCELS", CYAN)].

End Expected.

(** The exceptions that a malformed geometry makes the writer raise. *)
Definition geometry_error (e : exn) : Prop :=
  e = IndexError "list index out of range" \/ e = ZeroDivisionError "division by zero".

(** Every ring set has an exterior ring, and every exterior ring a vertex. *)
Definition well_formed (feats : list feature) : Prop :=
  forall feat rings,
    In feat feats -> In rings (rings_sets (geometry_of feat)) ->
    exists vertex exterior holes, rings = (vertex :: exterior) :: holes.

(** ** Sample inputs

    Stand-ins for the external functions on the values the examples use. *)

Module Demo.

(** [float] on plain decimal integer literals and on ["nan"]. *)
Definition float_of_literal (s : string) : option float :=
  if String.eqb s "nan" then Some S754_nan
  else option_map (fun i => float_of_Z (Z.of_int i)) (NilZero.int_of_string s).

(** [str] on integer-valued floats of moderate size, NaN and the
    infinities. *)
Definition str_of_float (f : float) : string :=
  match f with
  | S754_nan => "nan"
  | S754_infinity false => "inf"
  | S754_infinity true => "-inf"
  | S754_zero false => "0.0"
  | S754_zero true => "-0.0"
  | S754_finite s m e =>
      let sign := if s then "-" else "" in
      if (0 <=? e)%Z then sign ++ str_of_Z (Z.pos m * 2 ^ e) ++ ".0"
      else if (Z.pos m mod 2 ^ (- e) =? 0)%Z
           then sign ++ str_of_Z (Z.pos m / 2 ^ (- e)) ++ ".0"
           else "?"
  end.

(** A transform that leaves the coordinates as they are. *)
Definition identity_transform (src dst : Z) (x y : float) : float * float := (x, y).

(** The part of a file name before its last dot. *)
Fixpoint stem (s : string) : option string :=
  match s with
  | EmptyString => None
  | String c rest =>
      match stem rest with
      | Some st => Some (String c st)
      | None => if Ascii.eqb c "." then Some EmptyString else None
      end
  end.

(** [with_suffix] on a bare file name. *)
Definition name_with_suffix (name suffix : string) : option string :=
  if String.eqb name "" then None
  else match stem name with
       | Some st =>
           if negb (String.eqb st "") && (S (String.length st) <? String.length name)%nat
           then Some (st ++ suffix)%string
           else Some (name ++ suffix)%string
       | None => Some (name ++ suffix)%string
       end.

(** The externals of a run in which the network gives [answer]. *)
Definition env (answer : http_result) : Externals := {|
  py_float := float_of_literal;
  float_str := str_of_float;
  transform := identity_transform;
  network := fun _ _ _ => answer;
  with_suffix := name_with_suffix
|}.

(** The position with integer coordinates [x] and [y]. *)
Definition pt (x y : Z) : point := (float_of_Z x, float_of_Z y).

Definition square : ring := [pt 0 0; pt 10 0; pt 10 10; pt 0 10; pt 0 0].

Definition triangle : ring := [pt 20 0; pt 30 0; pt 20 10; pt 20 0].

Definition owner_attrs : attrs :=
  [("PIN", JStr "12-345"); ("OWNER1", JStr "DOE JOHN"); ("ACRES", JInt 2)].

Definition square_parcel : feature :=
  mkFeature (Polygon [square]) (Some owner_attrs).

Definition two_part_parcel : feature :=
  mkFeature (MultiPolygon [[triangle]; [square; triangle]]) None.

(** One Polygon and one MultiPolygon with two member polygons. *)
Definition collection : geojson := mkGeojson (Some [square_parcel; two_part_parcel]).

(** A Polygon whose coordinates are an empty list. *)
Definition hollow_parcel : feature := mkFeature (Polygon []) (Some owner_attrs).

(** A Polygon whose exterior ring has no vertex. *)
Definition pointless_parcel : feature := mkFeature (Polygon [[]]) (Some owner_attrs).

Definition sample_bbox : string := "1604764,770138,1609220,765420".

End Demo.

(** ** Further observations *)

(** The events of a run that are not messages: the request and the files. *)
Definition is_echo (ev : event) : bool :=
  match ev with
  | Echo _ _ => true
  | _ => false
  end.

Definition effects (t : list event) : list event :=
  filter (fun ev => negb (is_echo ev)) t.

(** The text entities of a model space. *)
Definition texts (space : list entity) : list entity :=
  filter (fun e => negb (is_polyline e)) space.

(** The number of occurrences of a character in a string. *)
Fixpoint count_char (c : ascii) (s : string) : nat :=
  match s with
  | EmptyString => O
  | String c' rest => if Ascii.eqb c' c then S (count_char c rest) else count_char c rest
  end.

(** A feature without its holes: of every ring set only ring 0 is kept. *)
Definition drop_holes (feat : feature) : feature :=
  mkFeature
    (match geometry_of feat with
     | Polygon coordinates => Polygon (firstn 1 coordinates)
     | MultiPolygon coordinates => MultiPolygon (map (firstn 1) coordinates)
     end)
    (properties feat).

(** The exit status of the interpreter: 0 when [main] returns, the code of
    a [SystemExit], and 1 after any other uncaught exception. *)
Definition exit_status (o : outcome unit) : Z :=
  match o with
  | Returned _ => 0
  | Raised (SystemExit code) => code
  | Raised _ => 1
  end.

(** ** The test script *)

Section TestScript.
Context {E : Externals}.

(** [run_test()] of [test_extraction.py]: it runs the extractor as a child
    process with [check=True], so a non-zero exit status raises
    [CalledProcessError] and the test returns [False] (as it does when the
    child cannot be started); otherwise it prints whether the two files
    exist and returns [True]. Only the returned value is modelled, not the
    printed report. *)
Definition run_test : bool :=
  let bbox := "1604764,770138,1609220,765420" in
  let z := south in
  let output_file := "test_parcels.dxf" in
  let returncode :=
    exit_status (snd (main bbox z output_file DEFAULT_FIELDS true true true)) in
  if Z.eqb returncode 0 then true else false.

(** The exit status of the test script: [sys.exit(0 if success else 1)]. *)
Definition test_exit_status : Z := if run_test then 0 else 1.

End TestScript.

(** ** Comparison of floats *)

Lemma lt_not_nan (a b : float) :
  Py.lt a b = true -> is_nan a = false /\ is_nan b = false.
Proof.
  destruct a, b; cbn; intros H; try discriminate H; split; reflexivity.
Qed.

Lemma lt_le (a b : float) : Py.lt a b = true -> Py.le a b = true.
Proof.
  unfold Py.lt, Py.le, SFltb, SFleb.
  destruct (SFcompare a b) as [[ | | ] | ]; intros H; try discriminate H; reflexivity.
Qed.

Lemma compare_refl (a : float) : is_nan a = false -> SFcompare a a = Some Eq.
Proof.
  destruct a as [s | s | | s m e]; cbn; intros H; try discriminate H.
  - reflexivity.
  - destruct s; reflexivity.
  - rewrite Z.compare_refl.
    change (Pos.compare_cont Eq m m) with (Pos.compare m m).
    rewrite Pos.compare_refl.
    destruct s; reflexivity.
Qed.

Lemma le_refl (a : float) : Py.le a a = negb (is_nan a).
Proof.
  destruct (is_nan a) eqn:Hnan.
  - destruct a; try discriminate Hnan. reflexivity.
  - unfold Py.le, SFleb. rewrite (compare_refl a Hnan). reflexivity.
Qed.

(** [min(a, b) <= max(a, b)] holds exactly when the first argument is not
    NaN. *)
Lemma min_le_max (a b : float) : Py.le (Py.min a b) (Py.max a b) = negb (is_nan a).
Proof.
  unfold Py.min, Py.max.
  destruct (Py.lt b a) eqn:Hba; destruct (Py.lt a b) eqn:Hab.
  - destruct (lt_not_nan _ _ Hba) as [Hb Ha].
    rewrite le_refl, Hb, Ha. reflexivity.
  - destruct (lt_not_nan _ _ Hba) as [_ Ha].
    rewrite (lt_le _ _ Hba), Ha. reflexivity.
  - destruct (lt_not_nan _ _ Hab) as [Ha _].
    rewrite (lt_le _ _ Hab), Ha. reflexivity.
  - apply le_refl.
Qed.

Lemma negb_true_false (b : bool) : negb b = true <-> b = false.
Proof. destruct b; split; intros H; try discriminate H; reflexivity. Qed.

(** ** The re-projector *)

Section Reprojector.
Context {E : Externals}.

(** C4 (as amended). The re-projector transforms the (xmin, ymin) corner
    and the (xmax, ymax) corner, each by one call of the transform, and
    returns (min of the two Xs, min of the two Ys, max of the two Xs, max
    of the two Ys). The returned box has xmin <= xmax exactly when the
    transformed X of the first corner is not NaN, and ymin <= ymax exactly
    when its transformed Y is not NaN. *)
Theorem bbox_stateplane_to_service_ordered
    (xmin ymin xmax ymax : float) (z : zone) :
  let p0 := transform (STATE_PLANE z) SERVICE_SRID xmin ymin in
  let p1 := transform (STATE_PLANE z) SERVICE_SRID xmax ymax in
  let r := bbox_stateplane_to_service (xmin, ymin, xmax, ymax) z in
  r = (Py.min (fst p0) (fst p1), Py.min (snd p0) (snd p1),
       Py.max (fst p0) (fst p1), Py.max (snd p0) (snd p1))
  /\ (Py.le (fst (fst (fst r))) (snd (fst r)) = true <-> is_nan (fst p0) = false)
  /\ (Py.le (snd (fst (fst r))) (snd r) = true <-> is_nan (snd p0) = false).
Proof.
  cbv zeta. unfold bbox_stateplane_to_service.
  destruct (transform (STATE_PLANE z) SERVICE_SRID xmin ymin) as [x0 y0].
  destruct (transform (STATE_PLANE z) SERVICE_SRID xmax ymax) as [x1 y1].
  cbn [fst snd].
  split; [reflexivity | ].
  rewrite !min_le_max. split; apply negb_true_false.
Qed.

End Reprojector.

(** C4, the claim as stated fails: with a transform that hands a NaN
    through (here the identity) and the box (nan, 0, 1, 1), the returned box
    is (nan, 0, nan, 1), and nan <= nan is false. *)
Lemma bbox_stateplane_to_service_nan_unordered :
  let E := Demo.env (Parsed Demo.collection) in
  let r := bbox_stateplane_to_service
             (S754_nan, float_of_Z 0, float_of_Z 1, float_of_Z 1) south in
  r = (S754_nan, float_of_Z 0, S754_nan, float_of_Z 1)
  /\ ~ (Py.le (fst (fst (fst r))) (snd (fst r)) = true
        /\ Py.le (snd (fst (fst r))) (snd r) = true).
Proof.
  cbv zeta. split; [reflexivity | ].
  intros [H _]. vm_compute in H. discriminate H.
Qed.

(** ** The fetcher *)

Section Fetcher.
Context {E : Externals}.

Lemma fetch_parcels_requests (env_service : bbox) (z : zone) (fields : string) :
  requests_sent (fst (fetch_parcels env_service z fields)) =
  [(SERVICE_URL, fetch_params env_service z fields, 60%Z)].
Proof.
  unfold fetch_parcels, requests_get_json.
  destruct (network SERVICE_URL (fetch_params env_service z fields) 60)
    as [kind cause | cause | gj]; reflexivity.
Qed.

(** C8. For every re-projected envelope, zone and field list the fetcher
    sends exactly one GET request, to the fixed endpoint, with a timeout
    of 60 seconds and the parameters f=geojson,
    geometryType=esriGeometryEnvelope, geometry="xmin,ymin,xmax,ymax",
    inSR=3857, outSR=3734 (north) or 3735 (south), outFields=the field
    list, returnGeometry=true and where=1=1. *)
Theorem fetch_parcels_single_get
    (xmin ymin xmax ymax : float) (z : zone) (fields : string) :
  requests_sent (fst (fetch_parcels (xmin, ymin, xmax, ymax) z fields)) =
  [( SERVICE_URL,
     [ ("f", PStr "geojson");
       ("geometryType", PStr "esriGeometryEnvelope");
       ("geometry", PStr (float_str xmin ++ "," ++ float_str ymin ++ "," ++
                          float_str xmax ++ "," ++ float_str ymax));
       ("inSR", PInt 3857);
       ("outSR", PInt (match z with north => 3734 | south => 3735 end));
       ("outFields", PStr fields);
       ("returnGeometry", PStr "true");
       ("where", PStr "1=1") ],
     60%Z )].
Proof.
  rewrite fetch_parcels_requests. destruct z; reflexivity.
Qed.

(** A failed request ends the fetcher with exit status 1, after one
    request and one message that carries the cause. *)
Lemma fetch_parcels_request_failed (env_service : bbox) (z : zone)
    (fields : string) (kind : request_failure) (cause : string) :
  network SERVICE_URL (fetch_params env_service z fields) 60 = RequestFailed kind cause ->
  fetch_parcels env_service z fields =
  ([HttpGet SERVICE_URL (fetch_params env_service z fields) 60;
    Echo true ("❌  Error fetching parcels: " ++ cause)],
   Raised (SystemExit 1)).
Proof.
  intros H. unfold fetch_parcels, requests_get_json. rewrite H. reflexivity.
Qed.

Lemma fetch_parcels_not_json (env_service : bbox) (z : zone)
    (fields : string) (cause : string) :
  network SERVICE_URL (fetch_params env_service z fields) 60 = BodyNotJson cause ->
  fetch_parcels env_service z fields =
  ([HttpGet SERVICE_URL (fetch_params env_service z fields) 60;
    Echo true ("❌  Error fetching parcels: " ++ cause)],
   Raised (SystemExit 1)).
Proof.
  intros H. unfold fetch_parcels, requests_get_json. rewrite H. reflexivity.
Qed.

Lemma fetch_parcels_parsed (env_service : bbox) (z : zone)
    (fields : string) (gj : geojson) :
  network SERVICE_URL (fetch_params env_service z fields) 60 = Parsed gj ->
  fetch_parcels env_service z fields =
  ([HttpGet SERVICE_URL (fetch_params env_service z fields) 60], Returned gj).
Proof.
  intros H. unfold fetch_parcels, requests_get_json. rewrite H. reflexivity.
Qed.

End Fetcher.

(** ** The metadata exporter *)

Section Exporter.

Lemma build_metadata_loop (feats : list feature) (n : nat) (acc : list attrs) :
  fold_left
    (fun md feat =>
       mkMetadata (total_parcels md) (parcels md ++ [get_properties feat]))
    feats (mkMetadata n acc) =
  mkMetadata n (acc ++ map get_properties feats).
Proof.
  revert acc. induction feats as [ | feat feats IH]; intros acc; cbn [fold_left map].
  - rewrite app_nil_r. reflexivity.
  - cbn [total_parcels parcels]. rewrite IH, <- app_assoc. reflexivity.
Qed.

(** C9. For every feature collection, [export_metadata] writes one object
    whose [total_parcels] equals the length of its [parcels] list, and
    whose [parcels] list is the sequence of the features' properties in
    feature order, a feature without a properties key giving an empty
    mapping. *)
Theorem export_metadata_invariant (feats : list feature) (output_path : string) :
  exists md : metadata,
    export_metadata (mkGeojson (Some feats)) output_path =
      ([WriteJson output_path md], Returned tt)
    /\ total_parcels md = List.length (parcels md)
    /\ parcels md =
         map (fun feat => match properties feat with
                          | Some props => props
                          | None => []
                          end) feats.
Proof.
  exists (build_metadata feats). split; [reflexivity | ].
  unfold build_metadata. rewrite build_metadata_loop. cbn [total_parcels parcels app].
  split; [ | reflexivity].
  rewrite length_map. reflexivity.
Qed.

End Exporter.

(** ** The drawing writer *)

Section Writer.
Context {E : Externals}.

Lemma truediv_mean (x : float) (xs : list float) :
  truediv (Py.sum (x :: xs)) (List.length (x :: xs)) = Returned (mean (x :: xs)).
Proof. reflexivity. Qed.

(** The loop body on a ring set that satisfies [ring_set_ok]. *)
Lemma process_rings_ok (inc : bool) (props : attrs) (rings : list ring)
    (space : list entity) :
  ring_set_ok inc props rings = true ->
  process_rings inc props rings space =
  Returned (space ++ ring_set_entities inc props rings).
Proof.
  destruct rings as [ | exterior holes]; cbn [ring_set_ok]; intros Hok.
  - discriminate Hok.
  - unfold process_rings. cbn [index0 obind ring_set_entities].
    fold (labelled inc props).
    destruct (labelled inc props) eqn:Hlab.
    + destruct exterior as [ | vertex exterior]; [discriminate Hok | ].
      cbn [map]. rewrite !truediv_mean. cbn [obind].
      rewrite <- app_assoc. reflexivity.
    + reflexivity.
Qed.

(** The loop body on a ring set that does not. *)
Lemma process_rings_bad (inc : bool) (props : attrs) (rings : list ring)
    (space : list entity) :
  ring_set_ok inc props rings = false ->
  exists e, process_rings inc props rings space = Raised e /\ geometry_error e.
Proof.
  destruct rings as [ | exterior holes]; cbn [ring_set_ok]; intros Hbad.
  - eexists. split; [reflexivity | left; reflexivity].
  - apply negb_false_iff, andb_true_iff in Hbad. destruct Hbad as [Hlab Hempty].
    destruct exterior; [ | discriminate Hempty].
    unfold process_rings. cbn [index0 obind]. fold (labelled inc props).
    rewrite Hlab. eexists. split; [reflexivity | right; reflexivity].
Qed.

Lemma ring_sets_loop_ok (inc : bool) (props : attrs) (sets : list (list ring))
    (space : list entity) :
  forallb (ring_set_ok inc props) sets = true ->
  for_in sets (process_rings inc props) space =
  Returned (space ++ flat_map (ring_set_entities inc props) sets).
Proof.
  revert space. induction sets as [ | rings sets IH]; intros space Hok.
  - cbn. rewrite app_nil_r. reflexivity.
  - cbn [forallb] in Hok. apply andb_true_iff in Hok. destruct Hok as [Hr Hs].
    cbn [for_in flat_map]. rewrite (process_rings_ok _ _ _ _ Hr). cbn [obind].
    rewrite (IH _ Hs), <- app_assoc. reflexivity.
Qed.

Lemma ring_sets_loop_bad (inc : bool) (props : attrs) (sets : list (list ring))
    (space : list entity) :
  forallb (ring_set_ok inc props) sets = false ->
  exists e, for_in sets (process_rings inc props) space = Raised e /\ geometry_error e.
Proof.
  revert space. induction sets as [ | rings sets IH]; intros space Hbad.
  - discriminate Hbad.
  - cbn [forallb] in Hbad. cbn [for_in].
    destruct (ring_set_ok inc props rings) eqn:Hr.
    + rewrite (process_rings_ok _ _ _ _ Hr). cbn [obind]. apply IH. exact Hbad.
    + destruct (process_rings_bad _ _ _ space Hr) as [e [He Hg]].
      exists e. rewrite He. split; [reflexivity | exact Hg].
Qed.

Lemma features_loop_ok (inc : bool) (feats : list feature) (space : list entity) :
  collection_ok inc feats = true ->
  for_in feats (process_feature inc) space =
  Returned (space ++ flat_map (feature_entities inc) feats).
Proof.
  revert space. induction feats as [ | feat feats IH]; intros space Hok.
  - cbn. rewrite app_nil_r. reflexivity.
  - unfold collection_ok in Hok. cbn [forallb] in Hok.
    apply andb_true_iff in Hok. destruct Hok as [Hf Hfs].
    cbn [for_in flat_map]. unfold process_feature at 1.
    rewrite (ring_sets_loop_ok _ _ _ _ Hf). cbn [obind].
    rewrite (IH _ Hfs), <- app_assoc. reflexivity.
Qed.

Lemma features_loop_bad (inc : bool) (feats : list feature) (space : list entity) :
  collection_ok inc feats = false ->
  exists e, for_in feats (process_feature inc) space = Raised e /\ geometry_error e.
Proof.
  revert space. induction feats as [ | feat feats IH]; intros space Hbad.
  - discriminate Hbad.
  - unfold collection_ok in Hbad. cbn [forallb] in Hbad. cbn [for_in].
    unfold process_feature at 1.
    destruct (feature_ok inc feat) eqn:Hf.
    + unfold feature_ok in Hf. rewrite (ring_sets_loop_ok _ _ _ _ Hf). cbn [obind].
      apply IH. exact Hbad.
    + destruct (ring_sets_loop_bad _ _ _ space Hf) as [e [He Hg]].
      exists e. rewrite He. split; [reflexivity | exact Hg].
Qed.

(** On a collection that satisfies [collection_ok] the writer saves one
    drawing, whose model space holds the entities of the features in
    order. *)
Lemma geojson_to_dxf_ok (inc : bool) (feats : list feature) (dxf_path : string) :
  collection_ok inc feats = true ->
  geojson_to_dxf (mkGeojson (Some feats)) dxf_path inc =
  ([SaveDxf dxf_path
      (mkDrawing (expected_layers inc) (flat_map (feature_entities inc) feats))],
   Returned tt).
Proof.
  intros Hok. unfold geojson_to_dxf, build_drawing.
  cbn [getitem_features features obind].
  rewrite (features_loop_ok _ _ _ Hok). destruct inc; reflexivity.
Qed.

(** On any other collection it raises and saves nothing. *)
Lemma geojson_to_dxf_bad (inc : bool) (feats : list feature) (dxf_path : string) :
  collection_ok inc feats = false ->
  exists e,
    geojson_to_dxf (mkGeojson (Some feats)) dxf_path inc = ([], Raised e)
    /\ geometry_error e.
Proof.
  intros Hbad. unfold geojson_to_dxf, build_drawing.
  cbn [getitem_features features obind].
  destruct (features_loop_bad _ _ [] Hbad) as [e [He Hg]].
  exists e. rewrite He. split; [reflexivity | exact Hg].
Qed.

(** A well-formed collection satisfies [collection_ok], with or without
    labels. *)
Lemma well_formed_ok (inc : bool) (feats : list feature) :
  well_formed feats -> collection_ok inc feats = true.
Proof.
  intros Hwf. apply forallb_forall. intros feat Hin.
  apply forallb_forall. intros rings Hr.
  destruct (Hwf feat rings Hin Hr) as [vertex [exterior [holes ->]]].
  cbn. rewrite andb_false_r. reflexivity.
Qed.

(** A collection with an empty ring set does not. *)
Lemma empty_ring_set_not_ok (inc : bool) (feats : list feature) (feat : feature) :
  In feat feats -> In [] (rings_sets (geometry_of feat)) ->
  collection_ok inc feats = false.
Proof.
  intros Hin Hr. destruct (collection_ok inc feats) eqn:Hok; [ | reflexivity].
  unfold collection_ok in Hok. rewrite forallb_forall in Hok.
  specialize (Hok feat Hin). unfold feature_ok in Hok.
  rewrite forallb_forall in Hok. specialize (Hok [] Hr). discriminate Hok.
Qed.

Lemma polylines_ring_set (inc : bool) (props : attrs) (rings : list ring) :
  polylines (ring_set_entities inc props rings) =
  match rings with
  | exterior :: _ => [LWPolyline exterior true "PARCELS"]
  | [] => []
  end.
Proof.
  destruct rings as [ | exterior holes]; [reflexivity | ].
  cbn [ring_set_entities]. destruct (labelled inc props); reflexivity.
Qed.

Lemma polylines_app (xs ys : list entity) :
  polylines (xs ++ ys) = polylines xs ++ polylines ys.
Proof. apply filter_app. Qed.

Lemma polylines_feature (inc : bool) (feat : feature) :
  polylines (feature_entities inc feat) =
  map (fun exterior => LWPolyline exterior true "PARCELS") (exteriors [feat]).
Proof.
  unfold feature_entities, exteriors. cbn [flat_map]. rewrite app_nil_r.
  induction (rings_sets (geometry_of feat)) as [ | rings sets IH]; [reflexivity | ].
  cbn [flat_map]. rewrite polylines_app, map_app, IH, polylines_ring_set.
  destruct rings; reflexivity.
Qed.

(** The polylines of the expected model space are the exterior rings. *)
Lemma polylines_collection (inc : bool) (feats : list feature) :
  polylines (flat_map (feature_entities inc) feats) =
  map (fun exterior => LWPolyline exterior true "PARCELS") (exteriors feats).
Proof.
  induction feats as [ | feat feats IH]; [reflexivity | ].
  cbn [flat_map]. rewrite polylines_app, IH, polylines_feature.
  unfold exteriors. cbn [flat_map]. rewrite app_nil_r, map_app. reflexivity.
Qed.

(** With every ring set non-empty there is one exterior ring per ring
    set. *)
Lemma exteriors_count (inc : bool) (feats : list feature) :
  collection_ok inc feats = true ->
  List.length (exteriors feats) = count_ring_sets feats.
Proof.
  induction feats as [ | feat feats IH]; intros Hok; [reflexivity | ].
  unfold collection_ok in Hok. cbn [forallb] in Hok.
  apply andb_true_iff in Hok. destruct Hok as [Hf Hfs].
  unfold exteriors, count_ring_sets, list_sum. cbn [flat_map map fold_right].
  rewrite length_app. f_equal; [ | apply IH; exact Hfs].
  assert (Hsets : forall sets : list (list ring),
             forallb (ring_set_ok inc (get_properties feat)) sets = true ->
             List.length (flat_map (fun rings => match rings with
                                                 | exterior :: _ => [exterior]
                                                 | [] => []
                                                 end) sets)
             = List.length sets).
  { induction sets as [ | rings sets IHs]; intros H; [reflexivity | ].
    cbn [forallb] in H. apply andb_true_iff in H. destruct H as [Hr Hs].
    cbn [flat_map]. rewrite length_app, (IHs Hs).
    destruct rings; [discriminate Hr | reflexivity]. }
  unfold feature_ok in Hf. rewrite (Hsets _ Hf).
  destruct (geometry_of feat); reflexivity.
Qed.

End Writer.

(** ** Sums over a ring *)



(** ** Claims about the writer *)

Section WriterClaims.
Context {E : Externals}.

(** C5 (as amended). For every feature collection in which every ring set
    is non-empty (and, when labels are requested, every exterior ring of a
    feature with a non-empty PIN has a vertex) the writer saves a drawing
    with exactly one closed polyline on the PARCELS layer per ring set,
    one ring set for a Polygon and one per member polygon for a
    MultiPolygon, each made of ring 0's points as they are. In particular
    the collection of one Polygon and one MultiPolygon with two member
    polygons gives exactly three closed polylines, all on PARCELS. *)
Theorem geojson_to_dxf_polyline_per_ring_set :
  (forall (inc : bool) (feats : list feature) (dxf_path : string),
      collection_ok inc feats = true ->
      exists doc : drawing,
        geojson_to_dxf (mkGeojson (Some feats)) dxf_path inc =
          ([SaveDxf dxf_path doc], Returned tt)
        /\ polylines (msp doc) =
             map (fun exterior => LWPolyline exterior true "PARCELS") (exteriors feats)
        /\ List.length (polylines (msp doc)) = count_ring_sets feats)
  /\ (forall (inc : bool) (dxf_path : string),
         exists doc : drawing,
           geojson_to_dxf Demo.collection dxf_path inc =
             ([SaveDxf dxf_path doc], Returned tt)
           /\ polylines (msp doc) =
                [LWPolyline Demo.square true "PARCELS";
                 LWPolyline Demo.triangle true "PARCELS";
                 LWPolyline Demo.square true "PARCELS"]).
Proof.
  assert (General : forall (inc : bool) (feats : list feature) (dxf_path : string),
             collection_ok inc feats = true ->
             exists doc : drawing,
               geojson_to_dxf (mkGeojson (Some feats)) dxf_path inc =
                 ([SaveDxf dxf_path doc], Returned tt)
               /\ polylines (msp doc) =
                    map (fun exterior => LWPolyline exterior true "PARCELS")
                        (exteriors feats)
               /\ List.length (polylines (msp doc)) = count_ring_sets feats).
  { intros inc feats dxf_path Hok.
    exists (mkDrawing (expected_layers inc) (flat_map (feature_entities inc) feats)).
    split; [apply geojson_to_dxf_ok; exact Hok | ].
    cbn [msp]. rewrite polylines_collection, length_map.
    split; [reflexivity | apply (exteriors_count inc); exact Hok]. }
  split; [exact General | ].
  intros inc dxf_path.
  destruct (General inc [Demo.square_parcel; Demo.two_part_parcel] dxf_path)
    as [doc [Hrun [Hpoly _]]].
  - destruct inc; reflexivity.
  - exists doc. split; [exact Hrun | exact Hpoly].
Qed.


(** C10. The writer completes only on suitable geometry. On an empty ring
    set the access to ring 0 raises [IndexError], and a collection that
    holds one is never drawn; with labels on and a non-empty PIN an
    exterior ring without vertices raises [ZeroDivisionError]; when every
    ring set is non-empty and every exterior ring has a vertex, the writer
    completes and saves the drawing; and it completes exactly on the
    collections that satisfy [collection_ok]. *)
Theorem geojson_to_dxf_geometry_preconditions
    (inc : bool) (feats : list feature) (dxf_path : string) :
  (forall (props : attrs) (space : list entity),
      process_rings inc props [] space = Raised (IndexError "list index out of range"))
  /\ (forall feat : feature,
         In feat feats -> In [] (rings_sets (geometry_of feat)) ->
         exists e : exn,
           geojson_to_dxf (mkGeojson (Some feats)) dxf_path inc = ([], Raised e)
           /\ geometry_error e)
  /\ (forall (props : attrs) (holes : list ring) (space : list entity),
         truthy (dict_get props "PIN") = true ->
         process_rings true props ([] :: holes) space =
         Raised (ZeroDivisionError "division by zero"))
  /\ (well_formed feats ->
      exists doc : drawing,
        geojson_to_dxf (mkGeojson (Some feats)) dxf_path inc =
          ([SaveDxf dxf_path doc], Returned tt))
  /\ ((exists doc : drawing,
          geojson_to_dxf (mkGeojson (Some feats)) dxf_path inc =
            ([SaveDxf dxf_path doc], Returned tt))
      <-> collection_ok inc feats = true).
Proof.
  split; [reflexivity | ].
  split.
  { intros feat Hin Hempty. apply geojson_to_dxf_bad.
    apply (empty_ring_set_not_ok inc feats feat); assumption. }
  split.
  { intros props holes space Hpin. unfold process_rings.
    cbn [index0 obind andb]. rewrite Hpin. reflexivity. }
  split.
  { intros Hwf. eexists. apply geojson_to_dxf_ok. apply well_formed_ok. exact Hwf. }
  split.
  - intros [doc Hrun]. destruct (collection_ok inc feats) eqn:Hok; [reflexivity | ].
    destruct (geojson_to_dxf_bad inc feats dxf_path Hok) as [e [He _]].
    rewrite He in Hrun. discriminate Hrun.
  - intros Hok. eexists. apply geojson_to_dxf_ok. exact Hok.
Qed.

End WriterClaims.

(** ** The command line *)

Section Parser.
Context {E : Externals}.

(** What unpacking returns, and what it raises. *)
Lemma unpack_floats_spec (n : nat) (tokens : list string) :
  match unpack_floats n tokens with
  | Returned vs =>
      List.length tokens = n /\ List.length vs = n
      /\ map py_float tokens = map Some vs
  | Raised e => exists msg, e = ValueError msg
  end.
Proof.
  revert tokens. induction n as [ | n IH]; intros [ | tok tokens]; cbn [unpack_floats].
  - repeat split.
  - destruct (py_float tok); eexists; reflexivity.
  - eexists; reflexivity.
  - destruct (py_float tok) as [v | ] eqn:Htok; [ | eexists; reflexivity].
    specialize (IH tokens).
    destruct (unpack_floats n tokens) as [vs | e]; cbn [obind].
    + destruct IH as [Hlen [Hvs Hmap]]. cbn [List.length map].
      rewrite Hlen, Hvs, Htok, Hmap. repeat split.
    + exact IH.
Qed.

Lemma parse_bbox_four (s t1 t2 t3 t4 : string) (v1 v2 v3 v4 : float) :
  split "," s = [t1; t2; t3; t4] ->
  py_float t1 = Some v1 -> py_float t2 = Some v2 ->
  py_float t3 = Some v3 -> py_float t4 = Some v4 ->
  parse_bbox s = Returned (v1, v2, v3, v4).
Proof.
  intros Hs H1 H2 H3 H4. unfold parse_bbox. rewrite Hs.
  cbn [unpack_floats]. rewrite H1, H2, H3, H4. reflexivity.
Qed.

Lemma parse_bbox_invalid (s : string) :
  List.length (split "," s) <> 4%nat
  \/ (exists tok, In tok (split "," s) /\ py_float tok = None) ->
  exists msg, parse_bbox s = Raised (ValueError msg).
Proof.
  intros Hbad. unfold parse_bbox.
  pose proof (unpack_floats_spec 4 (split "," s)) as Hspec.
  destruct (unpack_floats 4 (split "," s)) as [vs | e]; cbn [obind].
  - destruct Hspec as [Hlen [_ Hmap]]. exfalso.
    destruct Hbad as [Hcount | [tok [Hin Hnone]]].
    + apply Hcount. exact Hlen.
    + apply (in_map py_float) in Hin. rewrite Hmap, Hnone in Hin.
      apply in_map_iff in Hin. destruct Hin as [v [Hv _]]. discriminate Hv.
  - destruct Hspec as [msg ->]. exists msg. reflexivity.
Qed.

Lemma main_parsed (s : string) (b : bbox) (z : zone) (out fields : string)
    (il em v : bool) :
  parse_bbox s = Returned b ->
  main s z out fields il em v = main_from_bbox b z out fields il em v.
Proof.
  intros H. unfold main. rewrite H. cbn [lift try_except bind].
  destruct (main_from_bbox b z out fields il em v) as [t r]. reflexivity.
Qed.

Lemma main_not_parsed (s msg : string) (z : zone) (out fields : string)
    (il em v : bool) :
  parse_bbox s = Raised (ValueError msg) ->
  main s z out fields il em v =
  ([Echo true "❌  --bbox must be four comma-separated numbers (xmin,ymin,xmax,ymax)"],
   Raised (SystemExit 1)).
Proof.
  intros H. unfold main. rewrite H. reflexivity.
Qed.

(** C3. A [--bbox] string of exactly four comma-separated numeric tokens
    is parsed to those four numbers, in order, as (xmin, ymin, xmax,
    ymax), and the program goes on with them; a string whose token count
    is not four, or with a token that is not numeric, makes the program
    report the bad argument on the error stream and exit with status 1. *)
Theorem main_bbox_parsing (s : string) (z : zone) (out fields : string)
    (il em v : bool) :
  (forall (t1 t2 t3 t4 : string) (v1 v2 v3 v4 : float),
      split "," s = [t1; t2; t3; t4] ->
      py_float t1 = Some v1 -> py_float t2 = Some v2 ->
      py_float t3 = Some v3 -> py_float t4 = Some v4 ->
      parse_bbox s = Returned (v1, v2, v3, v4)
      /\ main s z out fields il em v =
         main_from_bbox (v1, v2, v3, v4) z out fields il em v)
  /\ (List.length (split "," s) <> 4%nat
      \/ (exists tok, In tok (split "," s) /\ py_float tok = None) ->
      (exists msg, parse_bbox s = Raised (ValueError msg))
      /\ main s z out fields il em v =
         ([Echo true
             "❌  --bbox must be four comma-separated numbers (xmin,ymin,xmax,ymax)"],
          Raised (SystemExit 1))).
Proof.
  split.
  - intros t1 t2 t3 t4 v1 v2 v3 v4 Hs H1 H2 H3 H4.
    pose proof (parse_bbox_four s _ _ _ _ _ _ _ _ Hs H1 H2 H3 H4) as Hp.
    split; [exact Hp | apply main_parsed; exact Hp].
  - intros Hbad. destruct (parse_bbox_invalid s Hbad) as [msg Hp].
    split; [exists msg; exact Hp | apply (main_not_parsed s msg); exact Hp].
Qed.

End Parser.

(** ** The pipeline after parsing *)

Section Pipeline.
Context {E : Externals}.

(** C7. When the one request fails (transport error, timeout, connection
    error, or an error status turned into an exception by
    [raise_for_status]), the program reports the cause on the error
    stream and exits with status 1: the report is the last thing it does,
    exactly one request was sent, and no drawing or metadata file is
    written. *)
Theorem main_request_failed (s : string) (b : bbox) (z : zone)
    (out fields : string) (il em v : bool)
    (kind : request_failure) (cause : string) :
  parse_bbox s = Returned b ->
  network SERVICE_URL (fetch_params (bbox_stateplane_to_service b z) z fields) 60
    = RequestFailed kind cause ->
  let run := main s z out fields il em v in
  snd run = Raised (SystemExit 1)
  /\ last (fst run) (Echo false "") =
       Echo true ("❌  Error fetching parcels: " ++ cause)
  /\ requests_sent (fst run) =
       [(SERVICE_URL, fetch_params (bbox_stateplane_to_service b z) z fields, 60%Z)]
  /\ saved_drawings (fst run) = []
  /\ written_metadata (fst run) = [].
Proof.
  intros Hp Hnet. cbv zeta. rewrite (main_parsed _ _ _ _ _ _ _ _ Hp).
  destruct b as [[[xmin ymin] xmax] ymax]. unfold main_from_bbox.
  rewrite (fetch_parcels_request_failed _ _ _ _ _ Hnet).
  destruct v; repeat split; reflexivity.
Qed.

(** C6. When the response parses but has no feature (no ["features"] key,
    or an empty list), the program says that no parcel was found and exits
    with status 1; this is the last thing it does, and no drawing or
    metadata file is written. *)
Theorem main_no_features (s : string) (b : bbox) (z : zone)
    (out fields : string) (il em v : bool) (gj : geojson) :
  parse_bbox s = Returned b ->
  network SERVICE_URL (fetch_params (bbox_stateplane_to_service b z) z fields) 60
    = Parsed gj ->
  features gj = None \/ features gj = Some [] ->
  let run := main s z out fields il em v in
  snd run = Raised (SystemExit 1)
  /\ last (fst run) (Echo false "") =
       Echo false "❌  No parcels found in the specified bounding box"
  /\ saved_drawings (fst run) = []
  /\ written_metadata (fst run) = [].
Proof.
  intros Hp Hnet Hnone. cbv zeta. rewrite (main_parsed _ _ _ _ _ _ _ _ Hp).
  destruct b as [[[xmin ymin] xmax] ymax]. unfold main_from_bbox.
  rewrite (fetch_parcels_parsed _ _ _ _ Hnet).
  destruct Hnone as [Hfs | Hfs]; destruct v; cbn [when bind echo emit ret raise app];
    rewrite Hfs; repeat split; reflexivity.
Qed.

(** After parsing, no run of [main] writes a metadata file. *)
Lemma main_from_bbox_no_metadata (b : bbox) (z : zone) (out fields : string)
    (il em v : bool) :
  written_metadata (fst (main_from_bbox b z out fields il em v)) = [].
Proof.
  destruct b as [[[xmin ymin] xmax] ymax]. unfold main_from_bbox.
  destruct (network SERVICE_URL
              (fetch_params (bbox_stateplane_to_service (xmin, ymin, xmax, ymax) z)
                 z fields) 60) as [kind cause | cause | [fs]] eqn:Hnet.
  - rewrite (fetch_parcels_request_failed _ _ _ _ _ Hnet). destruct v; reflexivity.
  - rewrite (fetch_parcels_not_json _ _ _ _ Hnet). destruct v; reflexivity.
  - rewrite (fetch_parcels_parsed _ _ _ _ Hnet).
    destruct fs as [[ | f fs] | ]; [destruct v; reflexivity | | destruct v; reflexivity].
    unfold geojson_to_dxf.
    destruct v; cbn [when bind echo emit ret raise app features];
      (destruct (build_drawing (mkGeojson (Some (f :: fs))) il) as [doc | e];
       [ | reflexivity]);
      (destruct em; [destruct (with_suffix out ".json") | ]);
      destruct il; reflexivity.
Qed.

Lemma main_no_metadata (s : string) (z : zone) (out fields : string)
    (il em v : bool) :
  written_metadata (fst (main s z out fields il em v)) = [].
Proof.
  destruct (parse_bbox s) as [b | e] eqn:Hp.
  - rewrite (main_parsed _ _ _ _ _ _ _ _ Hp). apply main_from_bbox_no_metadata.
  - unfold main. rewrite Hp. destruct e; reflexivity.
Qed.

End Pipeline.

(** ** The metadata flag *)

(** C1 (the code does not do this). With [--export-metadata] the program
    is to write, once the drawing is saved, a metadata file next to it.
    In [main] the name [export_metadata] is the flag, so the call
    [export_metadata(gj, metadata_file)] applies a bool: no run of [main]
    writes a metadata file, and the sample run with the flag saves
    [parcels.dxf] and then ends in a [TypeError], although the module-level
    function, called on the same collection and path, writes the file. *)
Theorem main_export_metadata_flag_raises :
  (forall (E : Externals) (s : string) (z : zone) (out fields : string)
          (il em v : bool),
      written_metadata (fst (main s z out fields il em v)) = [])
  /\ (let E := Demo.env (Parsed Demo.collection) in
      let run :=
        main Demo.sample_bbox south "parcels.dxf" DEFAULT_FIELDS false true false in
      snd run = Raised (TypeError "'bool' object is not callable")
      /\ saved_drawings (fst run) = ["parcels.dxf"]
      /\ written_metadata (fst run) = []
      /\ with_suffix "parcels.dxf" ".json" = Some "parcels.json"
      /\ written_metadata (fst (export_metadata Demo.collection "parcels.json"))
         = ["parcels.json"]).
Proof.
  split.
  - intros E s z out fields il em v. apply main_no_metadata.
  - cbv zeta. repeat split; vm_compute; reflexivity.
Qed.

(** ** Sample runs *)

Lemma bbox_stateplane_to_service_ordered_witness :
  let E := Demo.env (Parsed Demo.collection) in
  let r := bbox_stateplane_to_service
             (float_of_Z 1604764, float_of_Z 770138,
              float_of_Z 1609220, float_of_Z 765420) south in
  Py.le (fst (fst (fst r))) (snd (fst r)) = true
  /\ Py.le (snd (fst (fst r))) (snd r) = true.
Proof.
  cbv zeta.
  pose proof (bbox_stateplane_to_service_ordered
                (E := Demo.env (Parsed Demo.collection))
                (float_of_Z 1604764) (float_of_Z 770138)
                (float_of_Z 1609220) (float_of_Z 765420) south) as H.
  cbv zeta in H. destruct H as [_ [Hx Hy]].
  split; [apply Hx | apply Hy]; reflexivity.
Defined.

Lemma main_bbox_parsing_witness :
  let E := Demo.env (Parsed Demo.collection) in
  parse_bbox Demo.sample_bbox =
    Returned (float_of_Z 1604764, float_of_Z 770138,
              float_of_Z 1609220, float_of_Z 765420)
  /\ main "1604764,770138,1609220" south "parcels.dxf" DEFAULT_FIELDS false false false =
     ([Echo true "❌  --bbox must be four comma-separated numbers (xmin,ymin,xmax,ymax)"],
      Raised (SystemExit 1))
  /\ main "1604764,770138,east,765420" south "parcels.dxf" DEFAULT_FIELDS false false false =
     ([Echo true "❌  --bbox must be four comma-separated numbers (xmin,ymin,xmax,ymax)"],
      Raised (SystemExit 1)).
Proof.
  cbv zeta. split; [ | split].
  - apply (proj1 (main_bbox_parsing (E := Demo.env (Parsed Demo.collection))
                    Demo.sample_bbox south "parcels.dxf" DEFAULT_FIELDS false false false)
             "1604764" "770138" "1609220" "765420"); reflexivity.
  - apply (proj2 (main_bbox_parsing (E := Demo.env (Parsed Demo.collection))
                    "1604764,770138,1609220" south "parcels.dxf" DEFAULT_FIELDS
                    false false false)).
    left. cbn. lia.
  - apply (proj2 (main_bbox_parsing (E := Demo.env (Parsed Demo.collection))
                    "1604764,770138,east,765420" south "parcels.dxf" DEFAULT_FIELDS
                    false false false)).
    right. exists "east". split; [cbn; tauto | reflexivity].
Defined.

Lemma main_no_features_witness :
  let E := Demo.env (Parsed (mkGeojson (Some []))) in
  let run := main Demo.sample_bbox south "parcels.dxf" DEFAULT_FIELDS true true false in
  snd run = Raised (SystemExit 1)
  /\ last (fst run) (Echo false "") =
       Echo false "❌  No parcels found in the specified bounding box"
  /\ saved_drawings (fst run) = []
  /\ written_metadata (fst run) = [].
Proof.
  cbv zeta.
  apply (main_no_features (E := Demo.env (Parsed (mkGeojson (Some []))))
           Demo.sample_bbox
           (float_of_Z 1604764, float_of_Z 770138, float_of_Z 1609220, float_of_Z 765420)
           south "parcels.dxf" DEFAULT_FIELDS true true false (mkGeojson (Some []))).
  - reflexivity.
  - reflexivity.
  - right. reflexivity.
Defined.

Lemma main_request_failed_witness :
  let E := Demo.env (RequestFailed Timeout "Read timed out. (read timeout=60)") in
  let run := main Demo.sample_bbox south "parcels.dxf" DEFAULT_FIELDS true true false in
  snd run = Raised (SystemExit 1)
  /\ last (fst run) (Echo false "") =
       Echo true "❌  Error fetching parcels: Read timed out. (read timeout=60)"
  /\ List.length (requests_sent (fst run)) = 1%nat
  /\ saved_drawings (fst run) = []
  /\ written_metadata (fst run) = [].
Proof.
  cbv zeta.
  pose proof (main_request_failed
                (E := Demo.env (RequestFailed Timeout "Read timed out. (read timeout=60)"))
                Demo.sample_bbox
                (float_of_Z 1604764, float_of_Z 770138,
                 float_of_Z 1609220, float_of_Z 765420)
                south "parcels.dxf" DEFAULT_FIELDS true true false
                Timeout "Read timed out. (read timeout=60)" eq_refl eq_refl) as H.
  cbv zeta in H. destruct H as [Hexit [Hlast [Hreq [Hdxf Hmeta]]]].
  split; [exact Hexit | ]. split; [exact Hlast | ].
  split; [rewrite Hreq; reflexivity | ]. split; assumption.
Defined.

Lemma geojson_to_dxf_polyline_per_ring_set_witness :
  let E := Demo.env (Parsed Demo.collection) in
  exists doc : drawing,
    geojson_to_dxf Demo.collection "parcels.dxf" true =
      ([SaveDxf "parcels.dxf" doc], Returned tt)
    /\ polylines (msp doc) =
         [LWPolyline Demo.square true "PARCELS";
          LWPolyline Demo.triangle true "PARCELS";
          LWPolyline Demo.square true "PARCELS"]
    /\ List.length (polylines (msp doc)) = 3%nat.
Proof.
  cbv zeta.
  apply (proj1 (geojson_to_dxf_polyline_per_ring_set (E := Demo.env (Parsed Demo.collection)))
           true [Demo.square_parcel; Demo.two_part_parcel] "parcels.dxf").
  reflexivity.
Defined.

(** C5, the claim as stated fails: a Polygon whose coordinates are an empty
    list is one ring set, and the writer raises at [rings[0]] before it adds
    or saves anything. *)
Lemma geojson_to_dxf_empty_ring_set_no_polyline :
  let E := Demo.env (Parsed Demo.collection) in
  count_ring_sets [Demo.hollow_parcel] = 1%nat
  /\ geojson_to_dxf (mkGeojson (Some [Demo.hollow_parcel])) "parcels.dxf" false =
     ([], Raised (IndexError "list index out of range"))
  /\ ~ (exists doc : drawing,
           geojson_to_dxf (mkGeojson (Some [Demo.hollow_parcel])) "parcels.dxf" false =
             ([SaveDxf "parcels.dxf" doc], Returned tt)
           /\ List.length (polylines (msp doc)) = 1%nat).
Proof.
  cbv zeta. split; [reflexivity | ]. split; [reflexivity | ].
  intros [doc [Hrun _]]. discriminate Hrun.
Qed.



Lemma geojson_to_dxf_geometry_preconditions_witness :
  let E := Demo.env (Parsed Demo.collection) in
  (exists doc : drawing,
      geojson_to_dxf Demo.collection "parcels.dxf" true =
        ([SaveDxf "parcels.dxf" doc], Returned tt))
  /\ (exists e : exn,
         geojson_to_dxf (mkGeojson (Some [Demo.square_parcel; Demo.hollow_parcel]))
           "parcels.dxf" true = ([], Raised e)
         /\ geometry_error e)
  /\ process_rings true Demo.owner_attrs [[]] [] =
     Raised (ZeroDivisionError "division by zero")
  /\ geojson_to_dxf (mkGeojson (Some [Demo.pointless_parcel])) "parcels.dxf" true =
     ([], Raised (ZeroDivisionError "division by zero")).
Proof.
  cbv zeta. split; [ | split; [ | split; [ | reflexivity]]].
  - apply (proj1 (proj2 (proj2 (proj2
             (geojson_to_dxf_geometry_preconditions
                (E := Demo.env (Parsed Demo.collection))
                true [Demo.square_parcel; Demo.two_part_parcel] "parcels.dxf"))))).
    intros feat rings Hfeat Hrings.
    destruct Hfeat as [<- | [<- | []]].
    + destruct Hrings as [<- | []]. do 3 eexists. reflexivity.
    + destruct Hrings as [<- | [<- | []]]; do 3 eexists; reflexivity.
  - apply (proj1 (proj2
             (geojson_to_dxf_geometry_preconditions
                (E := Demo.env (Parsed Demo.collection))
                true [Demo.square_parcel; Demo.hollow_parcel] "parcels.dxf"))
             Demo.hollow_parcel).
    + right. left. reflexivity.
    + left. reflexivity.
  - apply (proj1 (proj2 (proj2
             (geojson_to_dxf_geometry_preconditions
                (E := Demo.env (Parsed Demo.collection))
                true [] "parcels.dxf")))
             Demo.owner_attrs [] []).
    reflexivity.
Defined.

(** ** More on the comparison of floats *)

Lemma compare_antisym (a b : float) :
  SFcompare b a = option_map CompOpp (SFcompare a b).
Proof.
  destruct a as [sa | sa | | sa ma ea], b as [sb | sb | | sb mb eb]; cbn;
    try reflexivity;
    try (destruct sa; reflexivity);
    try (destruct sb; reflexivity);
    try (destruct sa, sb; reflexivity).
  change (Pos.compare_cont Eq mb ma) with (Pos.compare mb ma).
  change (Pos.compare_cont Eq ma mb) with (Pos.compare ma mb).
  rewrite (Z.compare_antisym ea eb), (Pos.compare_antisym ma mb).
  destruct sa, sb; try reflexivity;
    destruct (ea ?= eb)%Z; cbn; try reflexivity;
    destruct (ma ?= mb)%positive; reflexivity.
Qed.

Lemma compare_not_nan (a b : float) :
  is_nan a = false -> is_nan b = false -> exists c, SFcompare a b = Some c.
Proof.
  destruct a, b; cbn; intros Ha Hb; try discriminate Ha; try discriminate Hb;
    eexists; reflexivity.
Qed.

(** Among numbers, [not (b < a)] gives [a <= b]. *)
Lemma not_lt_le (a b : float) :
  is_nan a = false -> is_nan b = false -> Py.lt b a = false -> Py.le a b = true.
Proof.
  intros Ha Hb. unfold Py.lt, Py.le, SFltb, SFleb. rewrite (compare_antisym a b).
  destruct (compare_not_nan a b Ha Hb) as [c ->].
  destruct c; cbn; intros H; try discriminate H; reflexivity.
Qed.

Lemma min_le_left (a b : float) :
  is_nan a = false -> is_nan b = false -> Py.le (Py.min a b) a = true.
Proof.
  intros Ha Hb. unfold Py.min. destruct (Py.lt b a) eqn:Hba.
  - apply lt_le. exact Hba.
  - rewrite le_refl, Ha. reflexivity.
Qed.

Lemma min_le_right (a b : float) :
  is_nan a = false -> is_nan b = false -> Py.le (Py.min a b) b = true.
Proof.
  intros Ha Hb. unfold Py.min. destruct (Py.lt b a) eqn:Hba.
  - rewrite le_refl, Hb. reflexivity.
  - apply not_lt_le; assumption.
Qed.

Lemma le_max_left (a b : float) :
  is_nan a = false -> is_nan b = false -> Py.le a (Py.max a b) = true.
Proof.
  intros Ha Hb. unfold Py.max. destruct (Py.lt a b) eqn:Hab.
  - apply lt_le. exact Hab.
  - rewrite le_refl, Ha. reflexivity.
Qed.

Lemma le_max_right (a b : float) :
  is_nan a = false -> is_nan b = false -> Py.le b (Py.max a b) = true.
Proof.
  intros Ha Hb. unfold Py.max. destruct (Py.lt a b) eqn:Hab.
  - rewrite le_refl, Hb. reflexivity.
  - apply not_lt_le; assumption.
Qed.

(** [min] and [max] of two numbers do not depend on the order of their
    arguments, up to [==] on floats. *)
Lemma min_swap (a b : float) :
  is_nan a = false -> is_nan b = false -> SFeqb (Py.min a b) (Py.min b a) = true.
Proof.
  intros Ha Hb. unfold Py.min, Py.lt, SFltb, SFeqb.
  rewrite (compare_antisym a b).
  destruct (SFcompare a b) as [[ | | ] | ] eqn:Hab; cbn.
  - rewrite Hab. reflexivity.
  - rewrite (compare_refl a Ha). reflexivity.
  - rewrite (compare_refl b Hb). reflexivity.
  - destruct (compare_not_nan a b Ha Hb) as [c Hc]. rewrite Hc in Hab. discriminate Hab.
Qed.

Lemma max_swap (a b : float) :
  is_nan a = false -> is_nan b = false -> SFeqb (Py.max a b) (Py.max b a) = true.
Proof.
  intros Ha Hb. unfold Py.max, Py.lt, SFltb, SFeqb.
  rewrite (compare_antisym a b).
  destruct (SFcompare a b) as [[ | | ] | ] eqn:Hab; cbn.
  - rewrite Hab. reflexivity.
  - rewrite (compare_refl b Hb). reflexivity.
  - rewrite (compare_refl a Ha). reflexivity.
  - destruct (compare_not_nan a b Ha Hb) as [c Hc]. rewrite Hc in Hab. discriminate Hab.
Qed.

(** ** More on the re-projector *)

Section ReprojectorMore.
Context {E : Externals}.

(** X1. When the transform produces no NaN, the returned box contains both
    transformed corners: xmin <= x <= xmax and ymin <= y <= ymax for each of
    them. *)
Theorem bbox_stateplane_to_service_contains_corners
    (xmin ymin xmax ymax : float) (z : zone) :
  let p0 := transform (STATE_PLANE z) SERVICE_SRID xmin ymin in
  let p1 := transform (STATE_PLANE z) SERVICE_SRID xmax ymax in
  let r := bbox_stateplane_to_service (xmin, ymin, xmax, ymax) z in
  is_nan (fst p0) = false -> is_nan (snd p0) = false ->
  is_nan (fst p1) = false -> is_nan (snd p1) = false ->
  (Py.le (fst (fst (fst r))) (fst p0) = true /\ Py.le (fst p0) (snd (fst r)) = true)
  /\ (Py.le (fst (fst (fst r))) (fst p1) = true /\ Py.le (fst p1) (snd (fst r)) = true)
  /\ (Py.le (snd (fst (fst r))) (snd p0) = true /\ Py.le (snd p0) (snd r) = true)
  /\ (Py.le (snd (fst (fst r))) (snd p1) = true /\ Py.le (snd p1) (snd r) = true).
Proof.
  cbv zeta. unfold bbox_stateplane_to_service.
  destruct (transform (STATE_PLANE z) SERVICE_SRID xmin ymin) as [x0 y0].
  destruct (transform (STATE_PLANE z) SERVICE_SRID xmax ymax) as [x1 y1].
  cbn [fst snd]. intros Hx0 Hy0 Hx1 Hy1.
  repeat split;
    first [ apply min_le_left | apply min_le_right
          | apply le_max_left | apply le_max_right ]; assumption.
Qed.

(** X2. When the transform produces no NaN, the result does not depend on
    which of the two corners is given first: the box of (xmax, ymax, xmin,
    ymin) equals, component by component, the box of (xmin, ymin, xmax,
    ymax). *)
Theorem bbox_stateplane_to_service_corner_order
    (xmin ymin xmax ymax : float) (z : zone) :
  let p0 := transform (STATE_PLANE z) SERVICE_SRID xmin ymin in
  let p1 := transform (STATE_PLANE z) SERVICE_SRID xmax ymax in
  let r := bbox_stateplane_to_service (xmin, ymin, xmax, ymax) z in
  let r' := bbox_stateplane_to_service (xmax, ymax, xmin, ymin) z in
  is_nan (fst p0) = false -> is_nan (snd p0) = false ->
  is_nan (fst p1) = false -> is_nan (snd p1) = false ->
  SFeqb (fst (fst (fst r))) (fst (fst (fst r'))) = true
  /\ SFeqb (snd (fst (fst r))) (snd (fst (fst r'))) = true
  /\ SFeqb (snd (fst r)) (snd (fst r')) = true
  /\ SFeqb (snd r) (snd r') = true.
Proof.
  cbv zeta. unfold bbox_stateplane_to_service.
  destruct (transform (STATE_PLANE z) SERVICE_SRID xmin ymin) as [x0 y0].
  destruct (transform (STATE_PLANE z) SERVICE_SRID xmax ymax) as [x1 y1].
  cbn [fst snd]. intros Hx0 Hy0 Hx1 Hy1.
  repeat split; first [apply min_swap | apply max_swap]; assumption.
Qed.

End ReprojectorMore.

Lemma bbox_stateplane_to_service_contains_corners_witness :
  let E := Demo.env (Parsed Demo.collection) in
  let r := bbox_stateplane_to_service
             (float_of_Z 1604764, float_of_Z 770138,
              float_of_Z 1609220, float_of_Z 765420) south in
  r = (float_of_Z 1604764, float_of_Z 765420, float_of_Z 1609220, float_of_Z 770138)
  /\ Py.le (snd (fst (fst r))) (float_of_Z 770138) = true
  /\ Py.le (float_of_Z 765420) (snd r) = true.
Proof.
  cbv zeta. split; [reflexivity | ].
  pose proof (bbox_stateplane_to_service_contains_corners
                (E := Demo.env (Parsed Demo.collection))
                (float_of_Z 1604764) (float_of_Z 770138)
                (float_of_Z 1609220) (float_of_Z 765420) south
                eq_refl eq_refl eq_refl eq_refl) as H.
  cbv zeta in H. destruct H as [_ [_ [[Hy0 _] [_ Hy1]]]].
  split; [exact Hy0 | exact Hy1].
Defined.

Lemma bbox_stateplane_to_service_corner_order_witness :
  let E := Demo.env (Parsed Demo.collection) in
  let r := bbox_stateplane_to_service
             (float_of_Z 1604764, float_of_Z 770138,
              float_of_Z 1609220, float_of_Z 765420) south in
  let r' := bbox_stateplane_to_service
              (float_of_Z 1609220, float_of_Z 765420,
               float_of_Z 1604764, float_of_Z 770138) south in
  SFeqb (fst (fst (fst r))) (fst (fst (fst r'))) = true
  /\ SFeqb (snd (fst (fst r))) (snd (fst (fst r'))) = true
  /\ SFeqb (snd (fst r)) (snd (fst r')) = true
  /\ SFeqb (snd r) (snd r') = true.
Proof.
  cbv zeta.
  apply (bbox_stateplane_to_service_corner_order
           (E := Demo.env (Parsed Demo.collection))
           (float_of_Z 1604764) (float_of_Z 770138)
           (float_of_Z 1609220) (float_of_Z 765420) south); reflexivity.
Defined.

(** ** More on the parser *)

Lemma split_length (sep : ascii) (s : string) :
  List.length (split sep s) = S (count_char sep s).
Proof.
  induction s as [ | c rest IH]; cbn [split count_char]; [reflexivity | ].
  destruct (Ascii.eqb c sep).
  - cbn [List.length]. rewrite IH. reflexivity.
  - destruct (split sep rest) as [ | tok toks]; [discriminate IH | exact IH].
Qed.

Section ParserMore.
Context {E : Externals}.

(** The three ways in which unpacking fails. *)
Lemma unpack_floats_messages (n : nat) (tokens : list string) (e : exn) :
  unpack_floats n tokens = Raised e ->
  e = ValueError "too many values to unpack"
  \/ e = ValueError "could not convert string to float"
  \/ e = ValueError "not enough values to unpack".
Proof.
  revert tokens. induction n as [ | n IH]; intros [ | tok tokens]; cbn [unpack_floats].
  - intros H. discriminate H.
  - destruct (py_float tok); intros H; injection H as <-; auto.
  - intros H. injection H as <-. auto.
  - destruct (py_float tok); [ | intros H; injection H as <-; auto].
    destruct (unpack_floats n tokens) as [vs | e'] eqn:Hrest; cbn [obind]; intros H.
    + discriminate H.
    + injection H as <-. apply (IH tokens). exact Hrest.
Qed.

(** X3. If the parser returns a box, the [--bbox] string has exactly three
    commas and its four tokens are, in order, the strings that [float]
    turned into xmin, ymin, xmax and ymax. *)
Theorem parse_bbox_returned (s : string) (xmin ymin xmax ymax : float) :
  parse_bbox s = Returned (xmin, ymin, xmax, ymax) ->
  count_char "," s = 3%nat
  /\ map py_float (split "," s) = [Some xmin; Some ymin; Some xmax; Some ymax].
Proof.
  unfold parse_bbox. intros H.
  pose proof (unpack_floats_spec 4 (split "," s)) as Hspec.
  destruct (unpack_floats 4 (split "," s)) as [vs | e]; cbn [obind] in H;
    [ | discriminate H].
  destruct Hspec as [Hlen [_ Hmap]].
  destruct vs as [ | a [ | b [ | c [ | d [ | x vs]]]]]; try discriminate H.
  rewrite Hlen in H. cbn in H. injection H as -> -> -> ->.
  split; [ | exact Hmap].
  rewrite split_length in Hlen. injection Hlen as Hlen. exact Hlen.
Qed.

(** X4. The check [len(bbox.split(",")) != 4] after the unpacking never
    fires: whatever the string, the parser does not raise "Need exactly 4
    coordinates" (a wrong token count has already made the unpacking
    raise). *)
Theorem parse_bbox_count_check_dead (s : string) :
  parse_bbox s <> Raised (ValueError "Need exactly 4 coordinates").
Proof.
  unfold parse_bbox.
  pose proof (unpack_floats_spec 4 (split "," s)) as Hspec.
  destruct (unpack_floats 4 (split "," s)) as [vs | e] eqn:Hun; cbn [obind].
  - destruct Hspec as [Hlen [Hvs _]].
    destruct vs as [ | a [ | b [ | c [ | d [ | x vs]]]]]; try discriminate Hvs.
    rewrite Hlen. cbn. discriminate.
  - destruct (unpack_floats_messages _ _ _ Hun) as [-> | [-> | ->]]; discriminate.
Qed.

End ParserMore.

Lemma parse_bbox_returned_witness :
  let E := Demo.env (Parsed Demo.collection) in
  count_char "," Demo.sample_bbox = 3%nat
  /\ map py_float (split "," Demo.sample_bbox) =
     [Some (float_of_Z 1604764); Some (float_of_Z 770138);
      Some (float_of_Z 1609220); Some (float_of_Z 765420)].
Proof.
  cbv zeta.
  apply (parse_bbox_returned (E := Demo.env (Parsed Demo.collection)) Demo.sample_bbox).
  reflexivity.
Defined.

(** ** More on the drawing writer *)

Lemma for_in_ext {A S : Type} (xs : list A) (body body' : A -> S -> outcome S) (s : S) :
  (forall x s', body x s' = body' x s') ->
  for_in xs body s = for_in xs body' s.
Proof.
  intros Hext. revert s. induction xs as [ | x xs IH]; intros s; cbn [for_in].
  - reflexivity.
  - rewrite Hext. destruct (body' x s) as [s' | e]; cbn [obind]; [apply IH | reflexivity].
Qed.

Lemma for_in_map {A B S : Type} (g : A -> B) (xs : list A)
    (body : B -> S -> outcome S) (s : S) :
  for_in (map g xs) body s = for_in xs (fun x => body (g x)) s.
Proof.
  revert s. induction xs as [ | x xs IH]; intros s; cbn [for_in map].
  - reflexivity.
  - destruct (body (g x) s) as [s' | e]; cbn [obind]; [apply IH | reflexivity].
Qed.

Lemma texts_app (xs ys : list entity) : texts (xs ++ ys) = texts xs ++ texts ys.
Proof. apply filter_app. Qed.

Section WriterMore.
Context {E : Externals}.

Lemma process_rings_first_ring (inc : bool) (props : attrs) (rings : list ring)
    (space : list entity) :
  process_rings inc props (firstn 1 rings) space = process_rings inc props rings space.
Proof.
  destruct rings as [ | exterior holes]; reflexivity.
Qed.

Lemma process_feature_drop_holes (inc : bool) (feat : feature) (space : list entity) :
  process_feature inc (drop_holes feat) space = process_feature inc feat space.
Proof.
  unfold process_feature, drop_holes, get_properties. cbn [geometry_of properties].
  destruct (geometry_of feat) as [rings | members]; cbn [rings_sets for_in].
  - rewrite process_rings_first_ring. reflexivity.
  - rewrite for_in_map. apply for_in_ext. intros rings s.
    apply process_rings_first_ring.
Qed.

(** X6. Holes are never drawn and never looked at: the writer does the same
    on a collection and on the collection in which every ring set is cut
    down to its ring 0, whether it saves a drawing or raises. *)
Theorem geojson_to_dxf_ignores_holes
    (feats : list feature) (dxf_path : string) (inc : bool) :
  geojson_to_dxf (mkGeojson (Some (map drop_holes feats))) dxf_path inc =
  geojson_to_dxf (mkGeojson (Some feats)) dxf_path inc.
Proof.
  unfold geojson_to_dxf, build_drawing. cbn [getitem_features features obind].
  rewrite for_in_map.
  rewrite (for_in_ext feats _ (process_feature inc) []); [reflexivity | ].
  intros feat s. apply process_feature_drop_holes.
Qed.

Lemma no_empty_ring_set_ok (feats : list feature) :
  (forall feat, In feat feats -> ~ In [] (rings_sets (geometry_of feat))) ->
  collection_ok false feats = true.
Proof.
  intros Hne. apply forallb_forall. intros feat Hin.
  apply forallb_forall. intros rings Hr.
  destruct rings as [ | exterior holes]; [ | reflexivity].
  exfalso. apply (Hne feat Hin). exact Hr.
Qed.

Lemma entities_without_labels (feats : list feature) :
  flat_map (feature_entities false) feats =
  map (fun exterior => LWPolyline exterior true "PARCELS") (exteriors feats).
Proof.
  unfold exteriors. induction feats as [ | feat feats IH]; [reflexivity | ].
  cbn [flat_map]. rewrite map_app, IH. f_equal.
  unfold feature_entities.
  induction (rings_sets (geometry_of feat)) as [ | rings sets IHs]; [reflexivity | ].
  cbn [flat_map]. rewrite map_app, IHs. destruct rings; reflexivity.
Qed.

(** X7. Without [--include-labels], on a collection with no empty ring
    set, the saved drawing has the PARCELS layer only and its model space
    holds the closed polylines of the exterior rings and nothing else; the
    properties of the features play no part. *)
Theorem geojson_to_dxf_without_labels (feats : list feature) (dxf_path : string) :
  (forall feat, In feat feats -> ~ In [] (rings_sets (geometry_of feat))) ->
  geojson_to_dxf (mkGeojson (Some feats)) dxf_path false =
  ([SaveDxf dxf_path
      (mkDrawing [("PARCELS", CYAN)]
         (map (fun exterior => LWPolyline exterior true "PARCELS") (exteriors feats)))],
   Returned tt).
Proof.
  intros Hne.
  rewrite (geojson_to_dxf_ok false feats dxf_path (no_empty_ring_set_ok feats Hne)).
  rewrite entities_without_labels. reflexivity.
Qed.

Lemma texts_ring_sets (props : attrs) (sets : list (list ring)) :
  forallb (ring_set_ok true props) sets = true ->
  List.length (texts (flat_map (ring_set_entities true props) sets)) =
  if truthy (dict_get props "PIN") then List.length sets else 0%nat.
Proof.
  induction sets as [ | rings sets IH]; intros Hok.
  - destruct (truthy (dict_get props "PIN")); reflexivity.
  - cbn [forallb] in Hok. apply andb_true_iff in Hok. destruct Hok as [Hr Hs].
    cbn [flat_map]. rewrite texts_app, length_app, (IH Hs).
    destruct rings as [ | exterior holes]; [discriminate Hr | ].
    cbn [ring_set_entities]. unfold labelled. cbn [andb].
    destruct (truthy (dict_get props "PIN")); reflexivity.
Qed.

(** X8. With [--include-labels], when the writer completes, the drawing
    has one text per ring set of each feature whose PIN is non-empty (so a
    MultiPolygon with n member polygons gets n labels), and none for a
    feature whose PIN is missing, null, empty or zero. *)
Theorem geojson_to_dxf_label_count (feats : list feature) (dxf_path : string) :
  collection_ok true feats = true ->
  exists doc : drawing,
    geojson_to_dxf (mkGeojson (Some feats)) dxf_path true =
      ([SaveDxf dxf_path doc], Returned tt)
    /\ List.length (texts (msp doc)) =
       list_sum
         (map (fun feat =>
                 if truthy (dict_get (get_properties feat) "PIN")
                 then List.length (rings_sets (geometry_of feat))
                 else 0%nat)
              feats).
Proof.
  intros Hok. eexists. split; [apply geojson_to_dxf_ok; exact Hok | ].
  cbn [msp]. clear dxf_path.
  induction feats as [ | feat feats IH]; [reflexivity | ].
  unfold collection_ok in Hok. cbn [forallb] in Hok.
  apply andb_true_iff in Hok. destruct Hok as [Hf Hfs].
  cbn [flat_map map]. rewrite texts_app, length_app, (IH Hfs).
  unfold feature_entities at 1. unfold feature_ok in Hf.
  rewrite (texts_ring_sets _ _ Hf). reflexivity.
Qed.

End WriterMore.

Lemma geojson_to_dxf_without_labels_witness :
  let E := Demo.env (Parsed Demo.collection) in
  geojson_to_dxf Demo.collection "parcels.dxf" false =
  ([SaveDxf "parcels.dxf"
      (mkDrawing [("PARCELS", CYAN)]
         [LWPolyline Demo.square true "PARCELS";
          LWPolyline Demo.triangle true "PARCELS";
          LWPolyline Demo.square true "PARCELS"])],
   Returned tt).
Proof.
  cbv zeta.
  apply (geojson_to_dxf_without_labels (E := Demo.env (Parsed Demo.collection))
           [Demo.square_parcel; Demo.two_part_parcel] "parcels.dxf").
  intros feat [<- | [<- | []]] Hempty; cbn in Hempty.
  - destruct Hempty as [H | []]. discriminate H.
  - destruct Hempty as [H | [H | []]]; discriminate H.
Defined.

Lemma geojson_to_dxf_label_count_witness :
  let E := Demo.env (Parsed Demo.collection) in
  exists doc : drawing,
    geojson_to_dxf Demo.collection "parcels.dxf" true =
      ([SaveDxf "parcels.dxf" doc], Returned tt)
    /\ List.length (texts (msp doc)) = 1%nat.
Proof.
  cbv zeta.
  apply (geojson_to_dxf_label_count (E := Demo.env (Parsed Demo.collection))
           [Demo.square_parcel; Demo.two_part_parcel] "parcels.dxf").
  reflexivity.
Defined.

(** ** More on the pipeline *)

Section PipelineMore.
Context {E : Externals}.

Lemma parse_bbox_raises (s : string) (e : exn) :
  parse_bbox s = Raised e -> exists msg, e = ValueError msg.
Proof.
  unfold parse_bbox.
  pose proof (unpack_floats_spec 4 (split "," s)) as Hspec.
  destruct (unpack_floats 4 (split "," s)) as [vs | e']; cbn [obind].
  - destruct vs as [ | a [ | b [ | c [ | d [ | x vs]]]]];
      try (intros H; injection H as <-; eexists; reflexivity).
    destruct (negb (Nat.eqb (List.length (split "," s)) 4)); intros H;
      [injection H as <-; eexists; reflexivity | discriminate H].
  - intros H. injection H as <-. exact Hspec.
Qed.

Lemma main_invalid_bbox (s : string) (e : exn) (z : zone) (out fields : string)
    (il em v : bool) :
  parse_bbox s = Raised e ->
  main s z out fields il em v =
  ([Echo true "❌  --bbox must be four comma-separated numbers (xmin,ymin,xmax,ymax)"],
   Raised (SystemExit 1)).
Proof.
  intros Hp. destruct (parse_bbox_raises s e Hp) as [msg ->].
  apply (main_not_parsed s msg). exact Hp.
Qed.

(** What a run does once the collection is known to have a feature:
    [main_from_bbox] up to the drawing step is fixed by the network and
    the writer. *)
Ltac after_fetch Hnet v :=
  unfold main_from_bbox;
  first [ rewrite (fetch_parcels_request_failed _ _ _ _ _ Hnet)
        | rewrite (fetch_parcels_not_json _ _ _ _ Hnet)
        | rewrite (fetch_parcels_parsed _ _ _ _ Hnet) ];
  destruct v; cbn [when bind echo emit ret raise app features].

(** The exit status and the saved files of any run after parsing. *)
Lemma main_from_bbox_outcomes (b : bbox) (z : zone) (out fields : string)
    (il em v : bool) :
  let run := main_from_bbox b z out fields il em v in
  (snd run = Returned tt /\ em = false /\ saved_drawings (fst run) = [out])
  \/ (exit_status (snd run) = 1%Z
      /\ (saved_drawings (fst run) = []
          \/ (em = true /\ saved_drawings (fst run) = [out]))).
Proof.
  cbv zeta. destruct b as [[[xmin ymin] xmax] ymax].
  destruct (network SERVICE_URL
              (fetch_params (bbox_stateplane_to_service (xmin, ymin, xmax, ymax) z)
                 z fields) 60) as [kind cause | cause | [fs]] eqn:Hnet.
  - after_fetch Hnet v; right; (split; [reflexivity | left; reflexivity]).
  - after_fetch Hnet v; right; (split; [reflexivity | left; reflexivity]).
  - destruct fs as [[ | f fs] | ].
    + after_fetch Hnet v; right; (split; [reflexivity | left; reflexivity]).
    + destruct (collection_ok il (f :: fs)) eqn:Hok.
      * after_fetch Hnet v; rewrite (geojson_to_dxf_ok il (f :: fs) out Hok);
          (destruct em;
           [ right; destruct (with_suffix out ".json"); destruct il;
             (split; [reflexivity | right; split; reflexivity])
           | left; destruct il; repeat split; reflexivity ]).
      * destruct (geojson_to_dxf_bad il (f :: fs) out Hok) as [e [He Hg]].
        after_fetch Hnet v; rewrite He; right;
          destruct Hg as [-> | ->]; (split; [reflexivity | left; reflexivity]).
    + after_fetch Hnet v; right; (split; [reflexivity | left; reflexivity]).
Qed.

Lemma main_outcomes (s : string) (z : zone) (out fields : string) (il em v : bool) :
  let run := main s z out fields il em v in
  (snd run = Returned tt /\ em = false /\ saved_drawings (fst run) = [out])
  \/ (exit_status (snd run) = 1%Z
      /\ (saved_drawings (fst run) = []
          \/ (em = true /\ saved_drawings (fst run) = [out]))).
Proof.
  cbv zeta. destruct (parse_bbox s) as [b | e] eqn:Hp.
  - rewrite (main_parsed _ _ _ _ _ _ _ _ Hp). apply main_from_bbox_outcomes.
  - rewrite (main_invalid_bbox _ _ _ _ _ _ _ _ Hp).
    right. split; [reflexivity | left; reflexivity].
Qed.

(** X9. Every run of the program ends either with [main] returning, the
    metadata flag off and exactly one drawing saved, at the path given by
    [--out], or with exit status 1; and it never saves a drawing anywhere
    but at that path, nor more than once. *)
Theorem main_exit_status (s : string) (z : zone) (out fields : string)
    (il em v : bool) :
  let run := main s z out fields il em v in
  (snd run = Returned tt /\ exit_status (snd run) = 0%Z /\ em = false
   /\ saved_drawings (fst run) = [out])
  \/ (exit_status (snd run) = 1%Z
      /\ (saved_drawings (fst run) = [] \/ saved_drawings (fst run) = [out])).
Proof.
  cbv zeta.
  destruct (main_outcomes s z out fields il em v) as [[Hret [Hem Hsaved]] | [Hexit Hsaved]].
  - left. rewrite Hret. repeat split; assumption.
  - right. split; [exact Hexit | ].
    destruct Hsaved as [Hnone | [_ Hone]]; [left | right]; assumption.
Qed.

(** X10. With [--export-metadata] the program never ends well: whatever
    the arguments, the network and the collection, the exit status is 1. *)
Theorem main_export_metadata_exit_status (s : string) (z : zone)
    (out fields : string) (il v : bool) :
  exit_status (snd (main s z out fields il true v)) = 1%Z.
Proof.
  destruct (main_outcomes s z out fields il true v) as [[_ [Hem _]] | [Hexit _]].
  - discriminate Hem.
  - exact Hexit.
Qed.

(** X11. The test script runs the extractor with [--export-metadata], so
    [run_test] returns [False] and the script exits with status 1 in every
    environment. *)
Theorem run_test_always_fails : run_test = false /\ test_exit_status = 1%Z.
Proof.
  assert (Hrun : run_test = false).
  { unfold run_test. cbv zeta.
    destruct (main_outcomes "1604764,770138,1609220,765420" south "test_parcels.dxf"
                DEFAULT_FIELDS true true true) as [[_ [Hem _]] | [Hexit _]].
    - discriminate Hem.
    - rewrite Hexit. reflexivity. }
  split; [exact Hrun | ]. unfold test_exit_status. rewrite Hrun. reflexivity.
Qed.


(** X13. When the body of the response is not JSON, [Response.json()]
    raises an error that is a [RequestException], so the first [except]
    clause handles it: the program reports "Error fetching parcels" with
    the cause on the error stream, as the last thing it does, and exits
    with status 1 after its one request, without calling [doc.saveas]; the
    message "Error parsing response" of the second clause is not
    printed. *)
Theorem main_body_not_json (s : string) (b : bbox) (z : zone)
    (out fields : string) (il em v : bool) (cause : string) :
  parse_bbox s = Returned b ->
  network SERVICE_URL (fetch_params (bbox_stateplane_to_service b z) z fields) 60
    = BodyNotJson cause ->
  let run := main s z out fields il em v in
  snd run = Raised (SystemExit 1)
  /\ last (fst run) (Echo false "") =
       Echo true ("❌  Error fetching parcels: " ++ cause)
  /\ effects (fst run) =
       [HttpGet SERVICE_URL (fetch_params (bbox_stateplane_to_service b z) z fields) 60]
  /\ ~ In (Echo true ("❌  Error parsing response: " ++ cause)) (fst run).
Proof.
  intros Hp Hnet. cbv zeta. rewrite (main_parsed _ _ _ _ _ _ _ _ Hp).
  destruct b as [[[xmin ymin] xmax] ymax].
  after_fetch Hnet v;
    (split; [reflexivity | split; [reflexivity | split; [reflexivity | ]]]);
    cbn [fst In]; intros H;
    repeat (destruct H as [H | H]; [discriminate H | ]); exact H.
Qed.

(** X14. When the collection has a ring set on which the writer raises,
    [main] lets the exception through: the run ends, after the message
    that announces the drawing step, with an uncaught [IndexError] or
    [ZeroDivisionError], exit status 1, and no file. *)
Theorem main_bad_geometry (s : string) (b : bbox) (z : zone) (out fields : string)
    (il em v : bool) (f : feature) (fs : list feature) :
  parse_bbox s = Returned b ->
  network SERVICE_URL (fetch_params (bbox_stateplane_to_service b z) z fields) 60
    = Parsed (mkGeojson (Some (f :: fs))) ->
  collection_ok il (f :: fs) = false ->
  let run := main s z out fields il em v in
  (exists e, snd run = Raised e /\ geometry_error e)
  /\ exit_status (snd run) = 1%Z
  /\ last (fst run) (Echo false "") = Echo false "▶  Building DXF file…"
  /\ effects (fst run) =
       [HttpGet SERVICE_URL (fetch_params (bbox_stateplane_to_service b z) z fields) 60].
Proof.
  intros Hp Hnet Hbad. cbv zeta. rewrite (main_parsed _ _ _ _ _ _ _ _ Hp).
  destruct b as [[[xmin ymin] xmax] ymax].
  destruct (geojson_to_dxf_bad il (f :: fs) out Hbad) as [e [He Hg]].
  after_fetch Hnet v; rewrite He;
    (split; [exists e; split; [reflexivity | exact Hg] | ]);
    destruct Hg as [-> | ->]; repeat split; reflexivity.
Qed.

(** X15. Once the box has parsed, every run sends exactly one request, the
    query for the re-projected box, whatever the flags, the answer of the
    network and the collection; a run whose box does not parse sends
    none. *)
Theorem main_requests (s : string) (z : zone) (out fields : string)
    (il em v : bool) :
  requests_sent (fst (main s z out fields il em v)) =
  match parse_bbox s with
  | Returned b =>
      [(SERVICE_URL, fetch_params (bbox_stateplane_to_service b z) z fields, 60%Z)]
  | Raised _ => []
  end.
Proof.
  destruct (parse_bbox s) as [b | e] eqn:Hp.
  - rewrite (main_parsed _ _ _ _ _ _ _ _ Hp).
    destruct b as [[[xmin ymin] xmax] ymax].
    destruct (network SERVICE_URL
                (fetch_params (bbox_stateplane_to_service (xmin, ymin, xmax, ymax) z)
                   z fields) 60) as [kind cause | cause | [fs]] eqn:Hnet.
    + after_fetch Hnet v; reflexivity.
    + after_fetch Hnet v; reflexivity.
    + destruct fs as [[ | f fs] | ].
      * after_fetch Hnet v; reflexivity.
      * destruct (collection_ok il (f :: fs)) eqn:Hok.
        -- after_fetch Hnet v; rewrite (geojson_to_dxf_ok il (f :: fs) out Hok);
             (destruct em; [destruct (with_suffix out ".json") | ]);
             destruct il; reflexivity.
        -- destruct (geojson_to_dxf_bad il (f :: fs) out Hok) as [e [He _]].
           after_fetch Hnet v; rewrite He; reflexivity.
      * after_fetch Hnet v; reflexivity.
  - rewrite (main_invalid_bbox _ _ _ _ _ _ _ _ Hp). reflexivity.
Qed.

(** X16. [--verbose] only adds messages: with and without it the run ends
    the same way and performs the same request and the same file
    writes. *)
Theorem main_verbose_only_echoes (s : string) (z : zone) (out fields : string)
    (il em : bool) :
  snd (main s z out fields il em true) = snd (main s z out fields il em false)
  /\ effects (fst (main s z out fields il em true)) =
     effects (fst (main s z out fields il em false)).
Proof.
  destruct (parse_bbox s) as [b | e] eqn:Hp.
  - rewrite !(main_parsed _ _ _ _ _ _ _ _ Hp).
    destruct b as [[[xmin ymin] xmax] ymax]. unfold main_from_bbox.
    destruct (network SERVICE_URL
                (fetch_params (bbox_stateplane_to_service (xmin, ymin, xmax, ymax) z)
                   z fields) 60) as [kind cause | cause | [fs]] eqn:Hnet.
    + rewrite !(fetch_parcels_request_failed _ _ _ _ _ Hnet). split; reflexivity.
    + rewrite !(fetch_parcels_not_json _ _ _ _ Hnet). split; reflexivity.
    + rewrite !(fetch_parcels_parsed _ _ _ _ Hnet).
      cbn [when bind echo emit ret raise app features].
      destruct fs as [[ | f fs] | ]; [split; reflexivity | | split; reflexivity].
      destruct (collection_ok il (f :: fs)) eqn:Hok.
      * rewrite !(geojson_to_dxf_ok il (f :: fs) out Hok).
        (destruct em; [destruct (with_suffix out ".json") | ]);
          destruct il; split; reflexivity.
      * destruct (geojson_to_dxf_bad il (f :: fs) out Hok) as [e [He _]].
        rewrite !He. split; reflexivity.
  - rewrite !(main_invalid_bbox _ _ _ _ _ _ _ _ Hp). split; reflexivity.
Qed.

End PipelineMore.

(** ** More sample runs *)


Lemma main_body_not_json_witness :
  let E := Demo.env (BodyNotJson "Expecting value: line 1 column 1 (char 0)") in
  let run := main Demo.sample_bbox south "parcels.dxf" DEFAULT_FIELDS true false false in
  snd run = Raised (SystemExit 1)
  /\ last (fst run) (Echo false "") =
       Echo true "❌  Error fetching parcels: Expecting value: line 1 column 1 (char 0)"
  /\ List.length (effects (fst run)) = 1%nat.
Proof.
  cbv zeta.
  pose proof (main_body_not_json
                (E := Demo.env (BodyNotJson "Expecting value: line 1 column 1 (char 0)"))
                Demo.sample_bbox
                (float_of_Z 1604764, float_of_Z 770138,
                 float_of_Z 1609220, float_of_Z 765420)
                south "parcels.dxf" DEFAULT_FIELDS true false false
                "Expecting value: line 1 column 1 (char 0)" eq_refl eq_refl) as H.
  cbv zeta in H. destruct H as [Hexit [Hlast [Heff _]]].
  split; [exact Hexit | ]. split; [exact Hlast | ]. rewrite Heff. reflexivity.
Defined.

Lemma main_bad_geometry_witness :
  let E := Demo.env (Parsed (mkGeojson (Some [Demo.hollow_parcel]))) in
  let run := main Demo.sample_bbox south "parcels.dxf" DEFAULT_FIELDS false false false in
  snd run = Raised (IndexError "list index out of range")
  /\ exit_status (snd run) = 1%Z
  /\ saved_drawings (fst run) = [].
Proof.
  cbv zeta.
  pose proof (main_bad_geometry
                (E := Demo.env (Parsed (mkGeojson (Some [Demo.hollow_parcel]))))
                Demo.sample_bbox
                (float_of_Z 1604764, float_of_Z 770138,
                 float_of_Z 1609220, float_of_Z 765420)
                south "parcels.dxf" DEFAULT_FIELDS false false false
                Demo.hollow_parcel [] eq_refl eq_refl eq_refl) as H.
  cbv zeta in H. destruct H as [_ [Hexit _]].
  split; [reflexivity | ]. split; [exact Hexit | reflexivity].
Defined.
